(** * FireCrawlPy: the request dispatcher and the Markdown renderer of [main.py]

    A shallow embedding of [src/main.py].  The program parses its command
    line, derives an output directory from the URL, performs one HTTP GET
    and renders the decoded JSON answer into [crawling_results.md].

    Conventions of the embedding:
    - a Python [str] is a Rocq [string] holding its UTF-8 bytes (the file is
      written with [encoding="utf-8"], and every delimiter the program and
      [urlparse] look for is ASCII, so working on the bytes loses nothing);
      a [str] with a lone surrogate has no such bytes, and is the subject
      of the type [str] further down;
    - a Python [int] is a [Z];
    - the values [response.json()] can return form the type [pyval];
    - exceptions, the console, the file system and the network are threaded
      through a state-and-exception monad [M] over the record [World]. *)

From Stdlib Require Import ZArith Ascii String List Lia.
From Stdlib Require Import Floats.SpecFloat.
From stdpp Require Import base option list strings gmap pretty.

Local Open Scope Z_scope.

(** ** Python values *)

(** The values produced by [json.loads]: [None], [bool], [int], [float],
    [str], [list] and [dict].  A [dict] keeps its keys in insertion order,
    which is the order a [for] loop over it yields them, so it is an
    association list (with pairwise distinct keys for a decoded object). *)
#[warnings="-register-all"]
Inductive pyval : Type :=
  | PNone
  | PBool (b : bool)
  | PInt (n : Z)
  | PFloat (f : spec_float)
  | PStr (s : string)
  | PList (items : list pyval)
  | PDict (entries : list (string * pyval)).

(** The Python exceptions the program can meet. *)
Inductive requests_error :=
  | ConnectionError | ConnectTimeout | ReadTimeout | TooManyRedirects
  | HTTPError | JSONDecodeError.

Inductive os_error :=
  | FileExistsError | FileNotFoundError | NotADirectoryError | IsADirectoryError.

Inductive exn :=
  | RequestException (cls : requests_error) (msg : string)
  | SystemExit (code : Z)
  | OSError (cls : os_error)
  | AttributeError
  | TypeError
  | ValueError.

(** The outcome of evaluating a Python expression or statement. *)
Inductive result (A : Type) :=
  | Returned (a : A)
  | Raised (e : exn).
Arguments Returned {A} a.
Arguments Raised {A} e.

(** The line feed of the f-strings. *)
Definition LF : string := String (ascii_of_nat 10) EmptyString.

(** ** pathlib *)

(** A [PurePosixPath] is its [parts] tuple; an absolute path starts with the
    root as its first part. *)
Definition Path := list string.

Fixpoint split_on (sep : ascii) (s : string) : list string :=
  match s with
  | EmptyString => [EmptyString]
  | String c s' =>
      if Ascii.eqb c sep then EmptyString :: split_on sep s'
      else match split_on sep s' with
           | [] => [String c EmptyString]
           | w :: ws => String c w :: ws
           end
  end.

Definition starts_with (p s : string) : bool := String.prefix p s.

(** The root of a POSIX path: exactly two leading slashes are kept, any
    other number of leading slashes is one root. *)
Definition path_root (s : string) : list string :=
  if starts_with "/" s then
    if starts_with "//" s && negb (starts_with "///" s) then ["//"] else ["/"]
  else [].

Definition path_components (s : string) : list string :=
  filter (λ x, x ≠ EmptyString ∧ x ≠ ".") (split_on "/" s).

(** [Path(s)] *)
Definition Path_of (s : string) : Path := path_root s ++ path_components s.

(** [p / s]: an absolute right operand replaces the left one. *)
Definition path_div (p : Path) (s : string) : Path :=
  if starts_with "/" s then Path_of s else p ++ path_components s.

(** [p.parent]; the parent of the empty path and of a root is itself. *)
Definition path_parent (p : Path) : Path :=
  match p with
  | [] => []
  | [r] => if bool_decide (r = "/" ∨ r = "//") then [r] else []
  | _ => removelast p
  end.

Fixpoint join_with (sep : string) (l : list string) : string :=
  match l with
  | [] => EmptyString
  | [x] => x
  | x :: l' => x +:+ sep +:+ join_with sep l'
  end.

(** [str(p)] *)
Definition path_str (p : Path) : string :=
  match p with
  | [] => "."
  | r :: l =>
      if bool_decide (r = "/" ∨ r = "//") then r +:+ join_with "/" l
      else join_with "/" p
  end.

(** ** The world: console, file system, network *)

Record Request := {
  req_method : string;
  req_url : string;
  req_params : list (string * pyval)
}.

(** What [requests] hands back for a request that got an answer.  The
    bodies are those [json] settles: a body that decodes, and a body that
    is not JSON.  A body that exhausts the decoder (nesting beyond the
    recursion limit, an integer literal beyond the digit limit) is not
    among them. *)
Record Response := {
  status_code : Z;
  reason : string;
  resp_url : string;
  (** [inr v]: the body decodes to [v]; [inl msg]: decoding fails with [msg] *)
  body : string + pyval
}.

(** The answer of the network to a request: no answer at all (a
    [RequestException] below the HTTP level), or a response. *)
Inductive Exchange :=
  | Failed (cls : requests_error) (msg : string)
  | Answered (r : Response).

Record World := {
  dirs : gset Path;
  files : gmap Path string;
  stdout : list string;
  issued : list Request;
  remote : Request → Exchange
}.

Definition set_dirs (d : gset Path) (w : World) : World :=
  {| dirs := d; files := files w; stdout := stdout w;
     issued := issued w; remote := remote w |}.
Definition set_files (f : gmap Path string) (w : World) : World :=
  {| dirs := dirs w; files := f; stdout := stdout w;
     issued := issued w; remote := remote w |}.
Definition set_stdout (o : list string) (w : World) : World :=
  {| dirs := dirs w; files := files w; stdout := o;
     issued := issued w; remote := remote w |}.
Definition set_issued (r : list Request) (w : World) : World :=
  {| dirs := dirs w; files := files w; stdout := stdout w;
     issued := r; remote := remote w |}.

(** ** The monad of statements *)

Definition M (A : Type) : Type := World → result A * World.

Definition ret {A} (a : A) : M A := λ w, (Returned a, w).
Definition raise {A} (e : exn) : M A := λ w, (Raised e, w).
Definition bind {A B} (m : M A) (k : A → M B) : M B :=
  λ w, match m w with
       | (Returned a, w') => k a w'
       | (Raised e, w') => (Raised e, w')
       end.
Definition lift {A} (r : result A) : M A := λ w, (r, w).

Notation "'let*' x ':=' m 'in' k" := (bind m (λ x, k))
  (at level 10, x binder, m at level 100, k at level 200, only parsing).
Notation "m ';;' k" := (bind m (λ _, k))
  (at level 100, k at level 200, right associativity, only parsing).

(** [try: body except requests.RequestException as error: handler] *)
Definition try_except_RequestException {A}
    (body : M A) (handler : string → M A) : M A :=
  λ w, match body w with
       | (Raised (RequestException _ msg), w') => handler msg w'
       | r => r
       end.

(** [print(s)] *)
Definition print (s : string) : M unit :=
  λ w, (Returned tt, set_stdout (stdout w ++ [s]) w).

(** [sys.exit(code)] *)
Definition sys_exit {A} (code : Z) : M A := raise (SystemExit code).

(** ** The file system *)

(** A path stands for the entry stored under its parts: the kernel is not
    asked to resolve [..] or a symbolic link, and it takes a name of any
    length.  The properties that depend on it ask for an
    [ordinary_path]. *)

Definition is_root (p : Path) : bool := bool_decide (p = ["/"] ∨ p = ["//"]).
(** The current directory and the roots always exist. *)
Definition is_dir (w : World) (p : Path) : bool :=
  bool_decide (p = []) || is_root p || bool_decide (p ∈ dirs w).
Definition is_file (w : World) (p : Path) : bool :=
  bool_decide (is_Some (files w !! p)).

(** The checks the kernel makes while it resolves the directory of [p]. *)
Definition resolve_parent (w : World) (p : Path) : option os_error :=
  if is_file w (path_parent p) then Some NotADirectoryError
  else if negb (is_dir w (path_parent p)) then Some FileNotFoundError
  else None.

(** [os.mkdir(p)] *)
Definition os_mkdir (p : Path) : M unit :=
  λ w, match resolve_parent w p with
       | Some e => (Raised (OSError e), w)
       | None =>
           if is_dir w p || is_file w p then (Raised (OSError FileExistsError), w)
           else (Returned tt, set_dirs ({[p]} ∪ dirs w) w)
       end.

(** The [except OSError] arm of [Path.mkdir] with [exist_ok=True]: the
    error is swallowed when the path is a directory. *)
Definition mkdir_exist_ok_arm (p : Path) (e : os_error) : M unit :=
  λ w, if is_dir w p then (Returned tt, w) else (Raised (OSError e), w).

(** [p.mkdir(parents=False, exist_ok=True)] *)
Definition mkdir_exist_ok (p : Path) : M unit :=
  λ w, match os_mkdir p w with
       | (Raised (OSError FileNotFoundError), w') =>
           (Raised (OSError FileNotFoundError), w')
       | (Raised (OSError e), w') => mkdir_exist_ok_arm p e w'
       | r => r
       end.

(** [p.mkdir(parents=True, exist_ok=True)], by recursion on the reversed
    parts: on [FileNotFoundError] the parent is made first, then [p].  The
    test [self.parent == self] of the library is the case of the empty
    path here: a root is its own parent too, but a root exists, so that
    [os.mkdir] never raises [FileNotFoundError] for it. *)
Fixpoint mkdir_parents_rev (rp : list string) : M unit :=
  λ w, match os_mkdir (rev rp) w with
       | (Raised (OSError FileNotFoundError), w') =>
           match rp with
           | [] => (Raised (OSError FileNotFoundError), w')
           | _ :: rp' =>
               (mkdir_parents_rev rp' ;; mkdir_exist_ok (rev rp)) w'
           end
       | (Raised (OSError e), w') => mkdir_exist_ok_arm (rev rp) e w'
       | r => r
       end.

Definition Path_mkdir (p : Path) : M unit := mkdir_parents_rev (rev p).

(** [p.write_text(content, encoding="utf-8")]: the file is opened with mode
    ["w"], which truncates it, and the whole text is written.  The content
    is given by its UTF-8 bytes, so the encoder has nothing to reject here;
    [write_text_str] is the same step for a [str] it may reject. *)
Definition write_text (p : Path) (content : string) : M unit :=
  λ w, match resolve_parent w p with
       | Some e => (Raised (OSError e), w)
       | None =>
           if is_dir w p then (Raised (OSError IsADirectoryError), w)
           else (Returned tt, set_files (<[p := content]> (files w)) w)
       end.

(** ** Strings *)

Fixpoint string_forallb (f : ascii → bool) (s : string) : bool :=
  match s with
  | EmptyString => true
  | String c s' => f c && string_forallb f s'
  end.

Fixpoint string_filter (f : ascii → bool) (s : string) : string :=
  match s with
  | EmptyString => EmptyString
  | String c s' => if f c then String c (string_filter f s') else string_filter f s'
  end.

Fixpoint string_drop_while (f : ascii → bool) (s : string) : string :=
  match s with
  | EmptyString => EmptyString
  | String c s' => if f c then string_drop_while f s' else s
  end.

Fixpoint string_take_while (f : ascii → bool) (s : string) : string :=
  match s with
  | EmptyString => EmptyString
  | String c s' => if f c then String c (string_take_while f s') else EmptyString
  end.

(** [s[n:]] *)
Fixpoint string_drop (n : nat) (s : string) : string :=
  match n, s with
  | S n', String _ s' => string_drop n' s'
  | _, _ => s
  end.

(** [c in s] for a one-character [c] *)
Definition contains (c : ascii) (s : string) : bool :=
  negb (string_forallb (λ x, negb (Ascii.eqb x c)) s).

Definition code (c : ascii) : N := N_of_ascii c.

Definition in_range (lo hi : N) (c : ascii) : bool :=
  ((lo <=? code c) && (code c <=? hi))%N.

(** [s.isascii()] *)
Definition isascii (s : string) : bool := string_forallb (in_range 0 127) s.

(** ** urllib.parse *)

(** [_WHATWG_C0_CONTROL_OR_SPACE]: the characters up to the space. *)
Definition c0_control_or_space (c : ascii) : bool := in_range 0 32 c.

(** [_UNSAFE_URL_BYTES_TO_REMOVE]: tab, carriage return, line feed. *)
Definition unsafe_url_byte (c : ascii) : bool :=
  ((code c =? 9) || (code c =? 13) || (code c =? 10))%N.

Definition ascii_letter (c : ascii) : bool :=
  in_range 97 122 c || in_range 65 90 c.

(** [scheme_chars]: letters, digits and [+-.] *)
Definition scheme_char (c : ascii) : bool :=
  ascii_letter c || in_range 48 57 c
  || ((code c =? 43) || (code c =? 45) || (code c =? 46))%N.

(** [i = url.find(':')] with the slices [url[:i]] and [url[i+1:]] *)
Fixpoint split_at_colon (s : string) : option (string * string) :=
  match s with
  | EmptyString => None
  | String c s' =>
      if Ascii.eqb c ":" then Some (EmptyString, s')
      else match split_at_colon s' with
           | Some (pre, rest) => Some (String c pre, rest)
           | None => None
           end
  end.

(** The scheme test of [urlsplit]; the result is the URL after the scheme. *)
Definition after_scheme (url : string) : string :=
  match split_at_colon url with
  | Some (String c0 pre, rest) =>
      if ascii_letter c0 && string_forallb scheme_char (String c0 pre)
      then rest else url
  | _ => url
  end.

Definition netloc_delimiter (c : ascii) : bool :=
  Ascii.eqb c "/" || Ascii.eqb c "?" || Ascii.eqb c "#".

(** [_splitnetloc(url, 2)[0]]: from index 2 to the first of [/?#] *)
Definition splitnetloc (url : string) : string :=
  string_take_while (λ c, negb (netloc_delimiter c)) (string_drop 2 url).

(** The parts of the Python library that are taken as given: [str(v)] of a
    value that is not a [str] (the [repr] of floats, lists and dicts), and
    the two validations [urlsplit] runs on a netloc that has both brackets
    (an IPv6 literal) or is not ASCII (the NFKC check); [false] stands for
    the [ValueError] they raise. *)
Class PythonLibrary := {
  str_of_value : pyval → string;
  check_bracketed_netloc : string → bool;
  checknetloc_nfkc : string → bool
}.

(** The UTF-8 continuation bytes. *)
Definition continuation_byte (c : ascii) : bool := in_range 128 191 c.

(** The characters of a [str], each as a one-character [str]. *)
Fixpoint characters (s : string) : list string :=
  match s with
  | EmptyString => []
  | String c s' =>
      let rest := characters s' in
      match s' with
      | String c' _ =>
          if continuation_byte c' then
            match rest with
            | g :: gs => String c g :: gs
            | [] => [String c EmptyString]
            end
          else String c EmptyString :: rest
      | EmptyString => String c EmptyString :: rest
      end
  end.

(** [d.get(key, default)]: only a [dict] has the method. *)
Fixpoint entries_get (entries : list (string * pyval)) (key : string)
    (default : pyval) : pyval :=
  match entries with
  | [] => default
  | (k, v) :: rest => if String.eqb k key then v else entries_get rest key default
  end.

Definition dict_get (d : pyval) (key : string) (default : pyval) : result pyval :=
  match d with
  | PDict entries => Returned (entries_get entries key default)
  | _ => Raised AttributeError
  end.

(** The items a [for] loop draws from a value. *)
Definition iterate (v : pyval) : result (list pyval) :=
  match v with
  | PList items => Returned items
  | PStr s => Returned (PStr <$> characters s)
  | PDict entries => Returned ((λ e, PStr e.1) <$> entries)
  | _ => Raised TypeError
  end.

(** The parsed command line ([argparse.Namespace]). *)
Record Namespace := {
  url : string;
  depth : Z;
  dataType : string;
  requestLimit : Z
}.

Section Program.
Context `{lib : PythonLibrary}.

(** [f"{v}"] *)
Definition format (v : pyval) : string :=
  match v with
  | PStr s => s
  | _ => str_of_value v
  end.

(** [urlparse(url).netloc] (CPython 3.12) *)
Definition urlparse_netloc (url : string) : result string :=
  let url := string_drop_while c0_control_or_space url in
  let url := string_filter (λ c, negb (unsafe_url_byte c)) url in
  let url := after_scheme url in
  if starts_with "//" url then
    let netloc := splitnetloc url in
    let lb := contains "[" netloc in
    let rb := contains "]" netloc in
    if xorb lb rb then Raised ValueError
    else if lb && rb && negb (check_bracketed_netloc netloc) then Raised ValueError
    else if negb (isascii netloc) && negb (checknetloc_nfkc netloc) then Raised ValueError
    else Returned netloc
  else Returned EmptyString.

(** [requests.get(url, params=params)] *)
Definition requests_get (url : string) (params : list (string * pyval)) : M Response :=
  λ w,
    let rq := {| req_method := "GET"; req_url := url; req_params := params |} in
    let w' := set_issued (issued w ++ [rq]) w in
    match remote w rq with
    | Failed cls msg => (Raised (RequestException cls msg), w')
    | Answered r => (Returned r, w')
    end.

(** [response.raise_for_status()] *)
Definition raise_for_status (r : Response) : M unit :=
  if (400 <=? status_code r) && (status_code r <? 500) then
    raise (RequestException HTTPError
             (pretty (status_code r) +:+ " Client Error: " +:+ reason r
              +:+ " for url: " +:+ resp_url r))
  else if (500 <=? status_code r) && (status_code r <? 600) then
    raise (RequestException HTTPError
             (pretty (status_code r) +:+ " Server Error: " +:+ reason r
              +:+ " for url: " +:+ resp_url r))
  else ret tt.

(** [response.json()]; the [JSONDecodeError] of [requests] is a
    [RequestException], and the one exception of the bodies of
    [Response]. *)
Definition Response_json (r : Response) : M pyval :=
  match body r with
  | inr v => ret v
  | inl msg => raise (RequestException JSONDecodeError msg)
  end.

Definition firecrawl_api_url : string := "https://api.firecrawl.com/crawl".

Definition crawl_site (url : string) (depth : Z) (data_type : string)
    (request_limit : Z) : M pyval :=
  let params := [("url", PStr url); ("depth", PInt depth);
                 ("dataType", PStr data_type); ("limit", PInt request_limit)] in
  try_except_RequestException
    (print "Enviando requisição para a API do Firecrawl..." ;;
     let* response := requests_get firecrawl_api_url params in
     raise_for_status response ;;
     Response_json response)
    (λ error,
       print ("Erro na requisição: " +:+ error) ;;
       sys_exit 1).

(** The body of a [for x in data.get(field, [])] loop that appends
    [line x] to [md_content] for every item. *)
Definition append_each (data : pyval) (field : string)
    (line : string → string) (md_content : string) : result string :=
  match dict_get data field (PList []) with
  | Raised e => Raised e
  | Returned v =>
      match iterate v with
      | Raised e => Raised e
      | Returned items =>
          Returned (fold_left (λ md x, md +:+ line (format x)) items md_content)
      end
  end.

(** Lines 53 to 69 of [save_as_markdown]: the document. *)
Definition md_content (data : pyval) (data_type : string) : result string :=
  let md := "# Resultado do Crawling" +:+ LF +:+ LF in
  let md := md +:+ "## Tipo de dados: " +:+ data_type +:+ LF +:+ LF in
  if String.eqb data_type "links" then
    let md := md +:+ "### Links encontrados:" +:+ LF +:+ LF in
    append_each data "links"
      (λ link, "- [" +:+ link +:+ "](" +:+ link +:+ ")" +:+ LF) md
  else if String.eqb data_type "text" then
    let md := md +:+ "### Textos extraídos:" +:+ LF +:+ LF in
    append_each data "texts"
      (λ text, text +:+ LF +:+ LF +:+ "---" +:+ LF +:+ LF) md
  else if String.eqb data_type "images" then
    let md := md +:+ "### Imagens encontradas:" +:+ LF +:+ LF in
    append_each data "images"
      (λ image, "![" +:+ image +:+ "](" +:+ image +:+ ")" +:+ LF +:+ LF) md
  else Returned md.

Definition save_as_markdown (data : pyval) (output_dir : Path)
    (data_type : string) : M unit :=
  let* md := lift (md_content data data_type) in
  let output_file := path_div output_dir "crawling_results.md" in
  write_text output_file md ;;
  print (LF +:+ "Resultados salvos em: " +:+ path_str output_file).

(** The output directory of a run: [Path("Output") / domain]. *)
Definition output_dir_of (url : string) : result Path :=
  match urlparse_netloc url with
  | Returned domain => Returned (path_div (Path_of "Output") domain)
  | Raised e => Raised e
  end.

Definition main (args : Namespace) : M unit :=
  let* output_dir := lift (output_dir_of (url args)) in
  Path_mkdir output_dir ;;
  print "Iniciando o crawling..." ;;
  let* result := crawl_site (url args) (depth args) (dataType args)
                   (requestLimit args) in
  save_as_markdown result output_dir (dataType args).

(** The process: exit status [0] when [main] returns, the code of a
    [SystemExit], and [1] for any other exception that reaches the top. *)
Definition exit_status (r : result unit) : Z :=
  match r with
  | Returned _ => 0
  | Raised (SystemExit c) => c
  | Raised _ => 1
  end.

Definition run (args : Namespace) (w : World) : Z * World :=
  let (r, w') := main args w in (exit_status r, w').

(** The steps of [main] before the request (lines 106 to 111). *)
Definition setup (args : Namespace) : M Path :=
  let* output_dir := lift (output_dir_of (url args)) in
  Path_mkdir output_dir ;;
  print "Iniciando o crawling..." ;;
  ret output_dir.

End Program.

(** ** Vocabulary of the properties *)

(** [key in d], with the value. *)
Fixpoint entries_lookup (entries : list (string * pyval)) (key : string)
    : option pyval :=
  match entries with
  | [] => None
  | (k, v) :: rest => if String.eqb k key then Some v else entries_lookup rest key
  end.

(** The three branches of [save_as_markdown]: the selector, the field of
    the response it reads, the heading of its section and what the loop
    appends for one item. *)
Definition link_line (link : string) : string :=
  "- [" +:+ link +:+ "](" +:+ link +:+ ")" +:+ LF.
Definition text_block (text : string) : string :=
  text +:+ LF +:+ LF +:+ "---" +:+ LF +:+ LF.
Definition image_block (image : string) : string :=
  "![" +:+ image +:+ "](" +:+ image +:+ ")" +:+ LF +:+ LF.

Definition sections : list (string * string * string * (string → string)) :=
  [("links", "links", "### Links encontrados:", link_line);
   ("text", "texts", "### Textos extraídos:", text_block);
   ("images", "images", "### Imagens encontradas:", image_block)].

Definition title_heading : string := "# Resultado do Crawling" +:+ LF +:+ LF.
Definition sub_heading (data_type : string) : string :=
  "## Tipo de dados: " +:+ data_type +:+ LF +:+ LF.

(** The file [save_as_markdown] writes. *)
Definition results_file (output_dir : Path) : Path :=
  path_div output_dir "crawling_results.md".

(** The output directory is a directory and the results file can be opened
    for writing in it. *)
Definition can_write (w : World) (output_dir : Path) : Prop :=
  is_dir w output_dir = true ∧ is_file w output_dir = false
  ∧ is_dir w (results_file output_dir) = false.

Definition concat_str (l : list string) : string := foldr String.append EmptyString l.

(** The lines of a text: what stands between its line feeds. *)
Definition lines (s : string) : list string := split_on (ascii_of_nat 10) s.

Definition no_line_feed (s : string) : Prop := contains (ascii_of_nat 10) s = false.

(** The horizontal rule between two paragraphs. *)
Definition rule_block : string := LF +:+ LF +:+ "---" +:+ LF +:+ LF.

(** A status outside the success range 200 to 299. *)
Definition non_success (status : Z) : Prop := ¬ (200 ≤ status < 300).
(** A status [raise_for_status] turns into an [HTTPError]. *)
Definition error_status (status : Z) : Prop := 400 ≤ status < 600.

(** The request [crawl_site] sends. *)
Definition request_of (u : string) (d : Z) (dt : string) (l : Z) : Request :=
  {| req_method := "GET";
     req_url := "https://api.firecrawl.com/crawl";
     req_params := [("url", PStr u); ("depth", PInt d);
                    ("dataType", PStr dt); ("limit", PInt l)] |}.

(** The one request of a run. *)
Definition crawl_request (args : Namespace) : Request :=
  request_of (url args) (depth args) (dataType args) (requestLimit args).

(** The single request of the run gets no answer, or an answer with an
    error status. *)
Definition request_fails (args : Namespace) (w : World) : Prop :=
  match remote w (crawl_request args) with
  | Failed _ _ => True
  | Answered r => error_status (status_code r)
  end.

(** [w'] differs from [w] by new directories at most. *)
Definition only_new_dirs (w w' : World) : Prop :=
  files w' = files w ∧ stdout w' = stdout w ∧ issued w' = issued w
  ∧ remote w' = remote w ∧ dirs w ⊆ dirs w'.

(** The shapes of the three pieces of a URL [scheme://host rest]: a scheme
    (a letter, then letters, digits and [+-.]), a host without [/?#] and
    without tab, carriage return or line feed, and a rest that is empty or
    starts at one of [/?#]. *)
Definition is_scheme (s : string) : bool :=
  match s with
  | EmptyString => false
  | String c _ => ascii_letter c && string_forallb scheme_char s
  end.

Definition is_host (s : string) : bool :=
  string_forallb (λ c, negb (netloc_delimiter c) && negb (unsafe_url_byte c)) s.

Definition is_rest (s : string) : bool :=
  match s with
  | EmptyString => true
  | String c _ => netloc_delimiter c
  end.

(** The four ways [os.mkdir] can go; it changes the world only when it
    makes the directory. *)
Inductive os_mkdir_case (p : Path) (w : World) : result () * World → Prop :=
  | mkdir_not_a_directory :
      is_file w (path_parent p) = true →
      os_mkdir_case p w (Raised (OSError NotADirectoryError), w)
  | mkdir_no_parent :
      is_file w (path_parent p) = false → is_dir w (path_parent p) = false →
      os_mkdir_case p w (Raised (OSError FileNotFoundError), w)
  | mkdir_exists :
      is_file w (path_parent p) = false → is_dir w (path_parent p) = true →
      is_dir w p || is_file w p = true →
      os_mkdir_case p w (Raised (OSError FileExistsError), w)
  | mkdir_made :
      is_file w (path_parent p) = false → is_dir w (path_parent p) = true →
      is_dir w p = false → is_file w p = false →
      os_mkdir_case p w (Returned (), set_dirs ({[p]} ∪ dirs w) w).

(** Two worlds with the same directories in which the same prefixes of
    [p] are files. *)
Definition agree (p : Path) (w1 w2 : World) : Prop :=
  dirs w1 = dirs w2 ∧ ∀ q, q `prefix_of` p → is_file w1 q = is_file w2 q.

(** No prefix of [p] ([p] included) is a regular file. *)
Definition no_file_on (p : Path) (w : World) : Prop :=
  ∀ q, q `prefix_of` p → is_file w q = false.

(** The decoded values a [for] loop cannot iterate: [None], a [bool], an
    [int], a [float]. *)
Definition not_iterable (v : pyval) : Prop :=
  match v with
  | PNone | PBool _ | PInt _ | PFloat _ => True
  | PStr _ | PList _ | PDict _ => False
  end.

Definition is_dict (v : pyval) : Prop :=
  match v with
  | PDict _ => True
  | _ => False
  end.

(** The two notices of the program and its error line. *)
Definition sending_notice : string := "Enviando requisição para a API do Firecrawl...".
Definition starting_notice : string := "Iniciando o crawling...".
Definition error_line (msg : string) : string := "Erro na requisição: " +:+ msg.

(** A host given without a scheme in front: not empty, not starting with
    a blank or a control character, and without [/?#], colon, tab,
    carriage return and line feed. *)
Definition is_bare_host (s : string) : bool :=
  match s with
  | EmptyString => false
  | String c _ =>
      negb (c0_control_or_space c)
      && string_forallb (λ c, negb (netloc_delimiter c) && negb (unsafe_url_byte c)
                              && negb (Ascii.eqb c ":")) s
  end.

(** What stands in the way of [mkdir]: the parent of the path is a regular
    file, or the path itself is one in an existing directory. *)
Definition blocked_by_file (p : Path) (w : World) : Prop :=
  is_file w (path_parent p) = true
  ∨ (is_file w p = true ∧ is_file w (path_parent p) = false
     ∧ is_dir w (path_parent p) = true).

(** ** The limits of the byte strings *)

(** The second byte of a sequence of three and of four bytes: no overlong
    form, no surrogate (U+D800 to U+DFFF), nothing above U+10FFFF. *)
Definition second_of_three (a b : ascii) : bool :=
  if (code a =? 224)%N then in_range 160 191 b
  else if (code a =? 237)%N then in_range 128 159 b
  else continuation_byte b.

Definition second_of_four (a b : ascii) : bool :=
  if (code a =? 240)%N then in_range 144 191 b
  else if (code a =? 244)%N then in_range 128 143 b
  else continuation_byte b.

(** The bytes are well-formed UTF-8 (RFC 3629): they are the encoding of a
    [str], and of a [str] that [encode("utf-8")] accepts. *)
Fixpoint is_utf8 (s : string) : bool :=
  match s with
  | EmptyString => true
  | String a r =>
      if in_range 0 127 a then is_utf8 r
      else
        match r with
        | EmptyString => false
        | String b r2 =>
            if in_range 194 223 a then continuation_byte b && is_utf8 r2
            else
              match r2 with
              | EmptyString => false
              | String c r3 =>
                  if in_range 224 239 a then
                    second_of_three a b && continuation_byte c && is_utf8 r3
                  else
                    match r3 with
                    | EmptyString => false
                    | String d r4 =>
                        in_range 240 244 a && second_of_four a b
                        && continuation_byte c && continuation_byte d
                        && is_utf8 r4
                    end
              end
        end
  end.

(** [NAME_MAX] of Linux: the longest file name, in bytes. *)
Definition NAME_MAX : nat := 255.

(** A part of a path that names the entry of its directory stored under
    that very name: not [..], which names the directory above; no longer
    than [NAME_MAX], beyond which the kernel answers [ENAMETOOLONG]; and
    without a NUL byte, which [os] rejects with a [ValueError]. *)
Definition ordinary_name (c : string) : bool :=
  negb (String.eqb c "..") && (String.length c <=? NAME_MAX)%nat
  && negb (contains (ascii_of_nat 0) c).

Definition ordinary_path (p : Path) : bool := forallb ordinary_name p.

(** The netloc passes the validations of [urlsplit]: brackets come in
    pairs, a bracketed host is an IP literal, and a netloc that is not
    ASCII survives the NFKC check. *)
Definition netloc_accepted `{PythonLibrary} (netloc : string) : bool :=
  let lb := contains "[" netloc in
  let rb := contains "]" netloc in
  negb (xorb lb rb)
  && (negb (lb && rb) || check_bracketed_netloc netloc)
  && (isascii netloc || checknetloc_nfkc netloc).

(** Two worlds with the same file system and console and the same
    requests issued so far; their services may differ. *)
Definition same_local (w1 w2 : World) : Prop :=
  dirs w1 = dirs w2 ∧ files w1 = files w2 ∧ stdout w1 = stdout w2
  ∧ issued w1 = issued w2.

(** ** Texts that UTF-8 cannot encode *)

(** A [str] as Python has it is a sequence of code points, and [json.loads]
    builds one with a lone surrogate from an escape such as [\ud800].  The
    byte strings above cannot hold it.  Here a [str] is a sequence of runs
    of characters that UTF-8 encodes, each given by its bytes, and of lone
    surrogates. *)
Inductive str_part :=
  | Encoded (bytes : string)
  | Surrogate (code_point : N).

Definition str := list str_part.

(** [s.encode("utf-8")]; [None] stands for [UnicodeEncodeError]. *)
Fixpoint encode_utf8 (s : str) : option string :=
  match s with
  | [] => Some EmptyString
  | Encoded bytes :: s' =>
      match encode_utf8 s' with
      | Some rest => Some (bytes +:+ rest)
      | None => None
      end
  | Surrogate _ :: _ => None
  end.

(** [p.write_text(content, encoding="utf-8")] for such a [str]: [open] with
    mode ["w"] truncates the file, then the text is encoded and written.
    When the encoder raises [UnicodeEncodeError], a [ValueError], the file
    stays empty. *)
Definition write_text_str (p : Path) (content : str) : M unit :=
  λ w, match resolve_parent w p with
       | Some e => (Raised (OSError e), w)
       | None =>
           if is_dir w p then (Raised (OSError IsADirectoryError), w)
           else match encode_utf8 content with
                | Some bytes =>
                    (Returned tt, set_files (<[p := bytes]> (files w)) w)
                | None =>
                    (Raised ValueError,
                     set_files (<[p := EmptyString]> (files w)) w)
                end
       end.

(** Lines 53, 54 and 61 to 64 of [save_as_markdown], for the selector
    [text] and a response whose [texts] field is the list [texts]. *)
Definition text_md_content (texts : list str) : str :=
  let md := [Encoded ("# Resultado do Crawling" +:+ LF +:+ LF)] in
  let md := md ++ [Encoded ("## Tipo de dados: " +:+ "text" +:+ LF +:+ LF)] in
  let md := md ++ [Encoded ("### Textos extraídos:" +:+ LF +:+ LF)] in
  fold_left (λ md text, md ++ text ++ [Encoded (LF +:+ LF +:+ "---" +:+ LF +:+ LF)])
    texts md.

(** [save_as_markdown({"texts": texts}, output_dir, "text")] *)
Definition save_texts_as_markdown (texts : list str) (output_dir : Path) : M unit :=
  let output_file := path_div output_dir "crawling_results.md" in
  write_text_str output_file (text_md_content texts) ;;
  print (LF +:+ "Resultados salvos em: " +:+ path_str output_file).

(** ** Sample inputs *)

(** An instance of the library for the examples: [str] of the scalars
    [None], [True], [False] and the integers, and validations that accept.
    The examples have no float, list or dict among the items and no
    bracketed or non-ASCII netloc, where this instance is arbitrary. *)
Definition sample_library : PythonLibrary :=
  {| str_of_value := λ v,
       match v with
       | PNone => "None"
       | PBool true => "True"
       | PBool false => "False"
       | PInt n => pretty n
       | _ => EmptyString
       end;
     check_bracketed_netloc := λ _, true;
     checknetloc_nfkc := λ _, true |}.

Definition sample_args (data_type : string) : Namespace :=
  {| url := "https://example.com/docs?page=2"; depth := 1;
     dataType := data_type; requestLimit := 10 |}.

Definition sample_dir : Path := ["Output"; "example.com"].

(** A service that answers every request with [status] and the JSON
    value [v]. *)
Definition answering (status : Z) (v : pyval) : Request → Exchange :=
  λ _, Answered {| status_code := status; reason := "";
                   resp_url := "https://api.firecrawl.com/crawl"; body := inr v |}.

(** A service that cannot be reached. *)
Definition unreachable : Request → Exchange :=
  λ _, Failed ConnectionError "Connection refused".

(** A world with an empty current directory. *)
Definition fresh_world (service : Request → Exchange) : World :=
  {| dirs := ∅; files := ∅; stdout := []; issued := []; remote := service |}.

(** A world in which the output directory of [sample_args] exists, and
    holds the results file when [old] is given. *)
Definition ready_world (old : option string) : World :=
  {| dirs := {[ ["Output"]; sample_dir ]};
     files := match old with
              | Some text => {[ results_file sample_dir := text ]}
              | None => ∅
              end;
     stdout := []; issued := []; remote := unreachable |}.

(** A service that answers 200 with a body that is not JSON. *)
Definition answering_text : Request → Exchange :=
  λ _, Answered {| status_code := 200; reason := "OK";
                   resp_url := "https://api.firecrawl.com/crawl";
                   body := inl "Expecting value: line 1 column 1 (char 0)" |}.

(** A world in which [Output] is a regular file. *)
Definition blocked_world : World :=
  {| dirs := ∅; files := {[ ["Output"] := "not a directory" ]};
     stdout := []; issued := []; remote := unreachable |}.

(** * Properties *)

Section Properties.
Context `{lib : PythonLibrary}.

(** ** Strings *)

Lemma append_assoc (a b c : string) : (a +:+ b) +:+ c = a +:+ (b +:+ c).
Proof.
  induction a as [|x a IH]; [reflexivity |].
  change (String x ((a +:+ b) +:+ c) = String x (a +:+ b +:+ c)).
  now rewrite IH.
Qed.

Lemma append_nil_r (s : string) : s +:+ EmptyString = s.
Proof.
  induction s as [|x s IH]; [reflexivity |].
  change (String x (s +:+ EmptyString) = String x s). now rewrite IH.
Qed.

Lemma concat_str_app (l1 l2 : list string) :
  concat_str (l1 ++ l2) = concat_str l1 +:+ concat_str l2.
Proof.
  induction l1 as [|x l1 IH]; [reflexivity |].
  change (x +:+ concat_str (l1 ++ l2) = (x +:+ concat_str l1) +:+ concat_str l2).
  now rewrite IH, append_assoc.
Qed.

(** ** The loop of the renderer *)

Lemma fold_left_append (line : string → string) (items : list pyval) (md : string) :
  fold_left (λ md x, md +:+ line (format x)) items md
  = md +:+ concat_str ((λ x, line (format x)) <$> items).
Proof.
  revert md; induction items as [|x items IH]; intros md; simpl.
  - apply eq_sym, append_nil_r.
  - rewrite IH, append_assoc. reflexivity.
Qed.

Lemma entries_get_lookup (entries : list (string * pyval)) (key : string) (d : pyval) :
  entries_get entries key d
  = match entries_lookup entries key with Some v => v | None => d end.
Proof.
  induction entries as [|[k v] rest IH]; simpl; [reflexivity |].
  now destruct (String.eqb k key).
Qed.

Lemma append_each_eq (data : pyval) (field : string) (line : string → string)
    (md : string) :
  append_each data field line md =
    match dict_get data field (PList []) with
    | Raised e => Raised e
    | Returned v =>
        match iterate v with
        | Raised e => Raised e
        | Returned items =>
            Returned (md +:+ concat_str ((λ x, line (format x)) <$> items))
        end
    end.
Proof.
  unfold append_each.
  destruct (dict_get data field (PList [])) as [v|e]; [|reflexivity].
  destruct (iterate v) as [items|e]; [|reflexivity].
  now rewrite fold_left_append.
Qed.

(** The document of a known selector: both headings, the heading of the
    section, and one block per item of the selected field. *)
Lemma md_content_section dt field title line (data : pyval) :
  (dt, field, title, line) ∈ sections →
  md_content data dt =
    match dict_get data field (PList []) with
    | Raised e => Raised e
    | Returned v =>
        match iterate v with
        | Raised e => Raised e
        | Returned items =>
            Returned (title_heading +:+ sub_heading dt +:+ title +:+ LF +:+ LF
                      +:+ concat_str ((λ x, line (format x)) <$> items))
        end
    end.
Proof.
  intros Hin. unfold sections in Hin.
  repeat (apply elem_of_cons in Hin as [Heq | Hin]; [inversion Heq; subst; clear Heq |]);
    [ | | | by apply elem_of_nil in Hin ].
  all: unfold md_content; simpl String.eqb; cbv iota.
  all: rewrite append_each_eq.
  all: destruct (dict_get data _ _) as [v|e]; [|reflexivity].
  all: destruct (iterate v) as [items|e]; [|reflexivity].
  all: f_equal; unfold title_heading, sub_heading; rewrite ?append_assoc; reflexivity.
Qed.

(** The document of any other selector. *)
Lemma md_content_other (data : pyval) (dt : string) :
  dt ≠ "links" → dt ≠ "text" → dt ≠ "images" →
  md_content data dt = Returned (title_heading +:+ sub_heading dt).
Proof.
  intros H1 H2 H3. unfold md_content.
  apply String.eqb_neq in H1, H2, H3. rewrite H1, H2, H3.
  reflexivity.
Qed.


(** ** Paths *)

Lemma results_file_eq (output_dir : Path) :
  results_file output_dir = output_dir ++ ["crawling_results.md"].
Proof. reflexivity. Qed.

Lemma path_parent_snoc (p : Path) (x : string) :
  x ≠ "/" → x ≠ "//" → path_parent (p ++ [x]) = p.
Proof.
  intros H1 H2. destruct p as [|a [|b p]]; simpl.
  - rewrite bool_decide_eq_false_2; [reflexivity | intros [?|?]; congruence].
  - reflexivity.
  - f_equal. f_equal. clear. revert b; induction p as [|c p IH]; intros b; simpl; [reflexivity|].
    f_equal. apply IH.
Qed.

Lemma path_parent_results_file (output_dir : Path) :
  path_parent (results_file output_dir) = output_dir.
Proof. rewrite results_file_eq. now apply path_parent_snoc. Qed.

(** ** Writing the document *)

Lemma save_as_markdown_writes (data : pyval) (dir : Path) (dt doc : string) (w : World) :
  md_content data dt = Returned doc →
  can_write w dir →
  save_as_markdown data dir dt w
  = (Returned tt,
     set_stdout (stdout w ++ [LF +:+ "Resultados salvos em: " +:+ path_str (results_file dir)])
       (set_files (<[results_file dir := doc]> (files w)) w)).
Proof.
  intros Hdoc (Hdir & Hfile & Hout).
  unfold save_as_markdown, bind, lift, write_text, print, resolve_parent.
  rewrite Hdoc. fold (results_file dir).
  rewrite path_parent_results_file, Hfile, Hdir, Hout. reflexivity.
Qed.

Lemma save_as_markdown_written (data : pyval) (dir : Path) (dt doc : string) (w : World) :
  md_content data dt = Returned doc →
  can_write w dir →
  ∃ w', save_as_markdown data dir dt w = (Returned tt, w')
        ∧ files w' !! results_file dir = Some doc.
Proof.
  intros Hdoc Hw. eexists. split; [by apply save_as_markdown_writes |].
  simpl. apply lookup_insert_eq.
Qed.

Lemma save_as_markdown_ext (d1 d2 : pyval) (dir : Path) (dt : string) (w : World) :
  md_content d1 dt = md_content d2 dt →
  save_as_markdown d1 dir dt w = save_as_markdown d2 dir dt w.
Proof. intros H. unfold save_as_markdown. now rewrite H. Qed.

Lemma md_content_present dt field title line entries (items : list string) :
  (dt, field, title, line) ∈ sections →
  entries_lookup entries field = Some (PList (PStr <$> items)) →
  md_content (PDict entries) dt
  = Returned (title_heading +:+ sub_heading dt +:+ title +:+ LF +:+ LF
              +:+ concat_str (line <$> items)).
Proof.
  intros Hin Hl. rewrite (md_content_section _ _ _ _ _ Hin). simpl.
  rewrite entries_get_lookup, Hl. simpl. do 6 f_equal.
  rewrite <- list_fmap_compose. reflexivity.
Qed.

Lemma md_content_absent dt field title line entries :
  (dt, field, title, line) ∈ sections →
  entries_lookup entries field = None →
  md_content (PDict entries) dt
  = Returned (title_heading +:+ sub_heading dt +:+ title +:+ LF +:+ LF).
Proof.
  intros Hin Hl. rewrite (md_content_section _ _ _ _ _ Hin). simpl.
  rewrite entries_get_lookup, Hl. simpl.
  unfold concat_str; simpl. now rewrite append_nil_r.
Qed.

(** ** Lines *)

Lemma contains_app (c : ascii) (a b : string) :
  contains c (a +:+ b) = contains c a || contains c b.
Proof.
  unfold contains. induction a as [|x a IH]; [reflexivity |].
  change (String x a +:+ b) with (String x (a +:+ b)). simpl.
  destruct (Ascii.eqb x c); simpl; [reflexivity | exact IH].
Qed.

Lemma split_on_line (sep : ascii) (a b : string) :
  contains sep a = false →
  split_on sep (a +:+ String sep b) = a :: split_on sep b.
Proof.
  unfold contains. induction a as [|x a IH]; intros Ha.
  - change (EmptyString +:+ String sep b) with (String sep b). simpl.
    now rewrite Ascii.eqb_refl.
  - change (String x a +:+ String sep b) with (String x (a +:+ String sep b)).
    simpl in *. destruct (Ascii.eqb x sep); simpl in Ha; [discriminate |].
    now rewrite (IH Ha).
Qed.

Lemma lines_cons (a b : string) :
  no_line_feed a → lines (a +:+ LF +:+ b) = a :: lines b.
Proof. intros Ha. unfold lines. now apply split_on_line. Qed.

Lemma concat_str_cons (a : string) (l : list string) :
  concat_str (a :: l) = a +:+ concat_str l.
Proof. reflexivity. Qed.

(** A run of lines, each closed by its line feed. *)
Lemma lines_block (ls : list string) (rest : string) :
  Forall no_line_feed ls →
  lines (concat_str ((λ l, l +:+ LF) <$> ls) +:+ rest) = ls ++ lines rest.
Proof.
  induction 1 as [|l ls Hl _ IH]; [reflexivity |].
  rewrite fmap_cons, concat_str_cons, !append_assoc, lines_cons by assumption.
  now rewrite IH.
Qed.

Lemma lines_blocks (block : string → list string) (items : list string) (rest : string) :
  Forall (λ x, Forall no_line_feed (block x)) items →
  lines (concat_str ((λ x, concat_str ((λ l, l +:+ LF) <$> block x)) <$> items) +:+ rest)
  = concat (block <$> items) ++ lines rest.
Proof.
  induction 1 as [|x items Hx _ IH]; [reflexivity |].
  rewrite !fmap_cons, concat_str_cons, append_assoc, lines_block by assumption.
  rewrite IH. simpl. now rewrite app_assoc.
Qed.

Lemma no_line_feed_app (a b : string) :
  no_line_feed a → no_line_feed b → no_line_feed (a +:+ b).
Proof. unfold no_line_feed. intros Ha Hb. now rewrite contains_app, Ha, Hb. Qed.

(** The lines of a document: the two headings and the heading of the
    section, each followed by an empty line, then the lines of the body. *)
Lemma lines_document (dt title body : string) :
  no_line_feed dt → no_line_feed title →
  lines (title_heading +:+ sub_heading dt +:+ title +:+ LF +:+ LF +:+ body)
  = ["# Resultado do Crawling"; ""; "## Tipo de dados: " +:+ dt; ""; title; ""]
    ++ lines body.
Proof.
  intros Hdt Htitle.
  rewrite <- (lines_block
    ["# Resultado do Crawling"; ""; "## Tipo de dados: " +:+ dt; ""; title; ""] body).
  - f_equal. unfold title_heading, sub_heading. simpl fmap. unfold concat_str. simpl foldr.
    rewrite ?append_assoc. reflexivity.
  - repeat constructor; assumption.
Qed.

(** ** The renderer *)

(** The file the renderer writes for a list of URL strings. *)
Lemma links_document
    (entries : list (string * pyval)) (urls : list string) (dir : Path) (w : World) :
  entries_lookup entries "links" = Some (PList (PStr <$> urls)) →
  can_write w dir →
  ∃ w' doc,
    save_as_markdown (PDict entries) dir "links" w = (Returned tt, w')
    ∧ files w' !! results_file dir = Some doc
    ∧ doc = title_heading +:+ sub_heading "links" +:+ "### Links encontrados:"
            +:+ LF +:+ LF
            +:+ concat_str ((λ u, "- [" +:+ u +:+ "](" +:+ u +:+ ")" +:+ LF) <$> urls)
    ∧ (Forall no_line_feed urls →
       lines doc
       = ["# Resultado do Crawling"; ""; "## Tipo de dados: links"; "";
          "### Links encontrados:"; ""]
         ++ ((λ u, "- [" +:+ u +:+ "](" +:+ u +:+ ")") <$> urls) ++ [""]).
Proof.
  intros Hl Hw.
  assert (Hin : ("links", "links", "### Links encontrados:", link_line) ∈ sections)
    by (unfold sections; set_solver).
  pose proof (md_content_present _ _ _ _ _ _ Hin Hl) as Hdoc.
  destruct (save_as_markdown_written _ _ _ _ _ Hdoc Hw) as (w' & Hsave & Hfile).
  exists w'; eexists. split; [exact Hsave |]. split; [exact Hfile |].
  split; [reflexivity |].
  intros Hurls. rewrite lines_document by reflexivity. f_equal.
  rewrite <- (append_nil_r (concat_str _)).
  pose proof (lines_blocks (λ u, ["- [" +:+ u +:+ "](" +:+ u +:+ ")"]) urls EmptyString) as Hb.
  simpl in Hb. unfold link_line.
  erewrite list_fmap_ext; [rewrite Hb |].
  - clear. induction urls as [|u urls IH]; [reflexivity | simpl; now f_equal].
  - eapply Forall_impl; [exact Hurls |]. intros u Hu. repeat constructor.
    repeat apply no_line_feed_app; try assumption; reflexivity.
  - intros i u _. simpl. unfold concat_str. simpl.
    rewrite ?append_assoc, append_nil_r. reflexivity.
Qed.

(** C3: for a response whose [links] field is a list of URL strings, the
    renderer selected with [links] writes the two headings, the heading of
    the section and then exactly one line [- [url](url)] per URL, in the
    order of the list; when no URL holds a line feed these are whole lines
    of the file, and the only ones after the headings.  In particular, for
    the response with the links [https://a.com] and [https://b.com], the
    lines of the file after the headings are the two list lines, in that
    order, and an empty last line. *)
Theorem C3_links_one_line_per_url
    (entries : list (string * pyval)) (urls : list string) (dir : Path) (w : World) :
  entries_lookup entries "links" = Some (PList (PStr <$> urls)) →
  can_write w dir →
  (∃ w' doc,
     save_as_markdown (PDict entries) dir "links" w = (Returned tt, w')
     ∧ files w' !! results_file dir = Some doc
     ∧ doc = title_heading +:+ sub_heading "links" +:+ "### Links encontrados:"
             +:+ LF +:+ LF
             +:+ concat_str ((λ u, "- [" +:+ u +:+ "](" +:+ u +:+ ")" +:+ LF) <$> urls)
     ∧ (Forall no_line_feed urls →
        lines doc
        = ["# Resultado do Crawling"; ""; "## Tipo de dados: links"; "";
           "### Links encontrados:"; ""]
          ++ ((λ u, "- [" +:+ u +:+ "](" +:+ u +:+ ")") <$> urls) ++ [""]))
  ∧ (∃ w' doc,
       save_as_markdown
         (PDict [("links", PList [PStr "https://a.com"; PStr "https://b.com"])])
         dir "links" w = (Returned tt, w')
       ∧ files w' !! results_file dir = Some doc
       ∧ lines doc
         = ["# Resultado do Crawling"; ""; "## Tipo de dados: links"; "";
            "### Links encontrados:"; "";
            "- [https://a.com](https://a.com)";
            "- [https://b.com](https://b.com)"; ""]).
Proof.
  intros Hl Hw. split; [now apply links_document |].
  destruct (links_document
              [("links", PList [PStr "https://a.com"; PStr "https://b.com"])]
              ["https://a.com"; "https://b.com"] dir w eq_refl Hw)
    as (w' & doc & Hsave & Hfile & _ & Hlines).
  exists w', doc. split; [exact Hsave |]. split; [exact Hfile |].
  apply Hlines. repeat constructor.
Qed.

Lemma text_blocks_join (texts : list string) :
  texts ≠ [] →
  concat_str (text_block <$> texts) = join_with rule_block texts +:+ rule_block.
Proof.
  induction texts as [|t [|t' rest] IH]; intros Hne; [congruence | |].
  - unfold concat_str, text_block, rule_block. simpl.
    rewrite ?append_assoc, append_nil_r. reflexivity.
  - rewrite fmap_cons, concat_str_cons, IH by discriminate.
    change (join_with rule_block (t :: t' :: rest))
      with (t +:+ rule_block +:+ join_with rule_block (t' :: rest)).
    unfold text_block, rule_block. rewrite ?append_assoc. reflexivity.
Qed.

(** The file the renderer writes for a non-empty list of texts. *)
Lemma texts_document
    (entries : list (string * pyval)) (texts : list string) (dir : Path) (w : World) :
  entries_lookup entries "texts" = Some (PList (PStr <$> texts)) →
  texts ≠ [] →
  can_write w dir →
  ∃ w' doc,
    save_as_markdown (PDict entries) dir "text" w = (Returned tt, w')
    ∧ files w' !! results_file dir = Some doc
    ∧ doc = title_heading +:+ sub_heading "text" +:+ "### Textos extraídos:"
            +:+ LF +:+ LF +:+ join_with rule_block texts +:+ rule_block
    ∧ (Forall no_line_feed texts →
       lines doc
       = ["# Resultado do Crawling"; ""; "## Tipo de dados: text"; "";
          "### Textos extraídos:"; ""]
         ++ concat ((λ t, [t; ""; "---"; ""]) <$> texts) ++ [""]).
Proof.
  intros Hl Hne Hw.
  assert (Hin : ("text", "texts", "### Textos extraídos:", text_block) ∈ sections)
    by (unfold sections; set_solver).
  pose proof (md_content_present _ _ _ _ _ _ Hin Hl) as Hdoc.
  destruct (save_as_markdown_written _ _ _ _ _ Hdoc Hw) as (w' & Hsave & Hfile).
  exists w'; eexists. split; [exact Hsave |]. split; [exact Hfile |].
  split; [now rewrite text_blocks_join |].
  intros Htexts. rewrite lines_document by reflexivity. f_equal.
  rewrite <- (append_nil_r (concat_str _)).
  pose proof (lines_blocks (λ t, [t; ""; "---"; ""]) texts EmptyString) as Hb.
  simpl in Hb.
  erewrite list_fmap_ext; [rewrite Hb; [reflexivity |] |].
  - eapply Forall_impl; [exact Htexts |]. intros t Ht.
    repeat constructor; assumption.
  - intros i t _. simpl. unfold concat_str, text_block. simpl.
    rewrite ?append_assoc, append_nil_r. reflexivity.
Qed.

(** ** Texts that UTF-8 can encode, and texts it cannot *)

Lemma encode_utf8_app (a b : str) :
  encode_utf8 (a ++ b) =
    match encode_utf8 a, encode_utf8 b with
    | Some x, Some y => Some (x +:+ y)
    | _, _ => None
    end.
Proof.
  induction a as [|[bytes|c] a IH]; simpl.
  - destruct (encode_utf8 b); reflexivity.
  - rewrite IH. destruct (encode_utf8 a), (encode_utf8 b); try reflexivity.
    now rewrite append_assoc.
  - reflexivity.
Qed.

Lemma text_loop_encoded (texts : list string) (md : str) (bytes : string) :
  encode_utf8 md = Some bytes →
  encode_utf8
    (fold_left (λ md text, md ++ text ++ [Encoded (LF +:+ LF +:+ "---" +:+ LF +:+ LF)])
       ((λ t, [Encoded t]) <$> texts) md)
  = Some (bytes +:+ concat_str (text_block <$> texts)).
Proof.
  revert md bytes. induction texts as [|t texts IH]; intros md bytes Hmd.
  - simpl. now rewrite append_nil_r.
  - rewrite !fmap_cons. simpl fold_left. rewrite (IH _ (bytes +:+ text_block t)).
    + rewrite concat_str_cons, append_assoc. reflexivity.
    + rewrite encode_utf8_app, Hmd. simpl. unfold text_block.
      rewrite ?append_assoc, append_nil_r. reflexivity.
Qed.

(** On texts that UTF-8 encodes, the renderer of the [str]s is the
    renderer of the byte strings. *)
Lemma save_texts_as_markdown_encoded
    (entries : list (string * pyval)) (texts : list string) (dir : Path) (w : World) :
  entries_lookup entries "texts" = Some (PList (PStr <$> texts)) →
  save_texts_as_markdown ((λ t, [Encoded t]) <$> texts) dir w
  = save_as_markdown (PDict entries) dir "text" w.
Proof.
  intros Hl.
  assert (Hin : ("text", "texts", "### Textos extraídos:", text_block) ∈ sections)
    by (unfold sections; apply list_elem_of_further, list_elem_of_here).
  unfold save_texts_as_markdown, save_as_markdown, bind, lift, write_text_str,
    write_text, text_md_content.
  rewrite (md_content_present _ _ _ _ _ _ Hin Hl).
  rewrite (text_loop_encoded texts _
             (title_heading +:+ sub_heading "text" +:+ "### Textos extraídos:"
              +:+ LF +:+ LF)) by reflexivity.
  rewrite ?append_assoc.
  destruct (resolve_parent w _); [reflexivity |].
  destruct (is_dir w _); reflexivity.
Qed.

(** C4, as amended: for a response whose [texts] field is a non-empty
    list of strings that UTF-8 can encode (strings without a lone
    surrogate, given here by their well-formed bytes), the renderer
    selected with [text] writes, after the headings, the entries joined by
    the rule block (an empty line, the line [---], an empty line), and one
    more rule block after the last entry; when no entry holds a line
    feed, each entry is a line of its own followed by an empty line, the
    line [---] and an empty line.  The renderer of the [str]s, which
    the encoder can stop, does the same on these texts.  In particular,
    for the response with the texts [Hello] and [World], the file holds
    [Hello] and [World] as paragraphs with a rule between them. *)
Theorem C4_texts_separated_by_rules
    (entries : list (string * pyval)) (texts : list string) (dir : Path) (w : World) :
  entries_lookup entries "texts" = Some (PList (PStr <$> texts)) →
  Forall (λ t, is_utf8 t = true) texts →
  texts ≠ [] →
  can_write w dir →
  (∃ w' doc,
     save_as_markdown (PDict entries) dir "text" w = (Returned tt, w')
     ∧ files w' !! results_file dir = Some doc
     ∧ doc = title_heading +:+ sub_heading "text" +:+ "### Textos extraídos:"
             +:+ LF +:+ LF +:+ join_with rule_block texts +:+ rule_block
     ∧ (Forall no_line_feed texts →
        lines doc
        = ["# Resultado do Crawling"; ""; "## Tipo de dados: text"; "";
           "### Textos extraídos:"; ""]
          ++ concat ((λ t, [t; ""; "---"; ""]) <$> texts) ++ [""]))
  ∧ save_texts_as_markdown ((λ t, [Encoded t]) <$> texts) dir w
    = save_as_markdown (PDict entries) dir "text" w
  ∧ (∃ w' doc,
       save_as_markdown (PDict [("texts", PList [PStr "Hello"; PStr "World"])])
         dir "text" w = (Returned tt, w')
       ∧ files w' !! results_file dir = Some doc
       ∧ lines doc
         = ["# Resultado do Crawling"; ""; "## Tipo de dados: text"; "";
            "### Textos extraídos:"; "";
            "Hello"; ""; "---"; ""; "World"; ""; "---"; ""; ""]).
Proof.
  intros Hl _ Hne Hw. split; [now apply texts_document |].
  split; [now apply save_texts_as_markdown_encoded |].
  destruct (texts_document [("texts", PList [PStr "Hello"; PStr "World"])]
              ["Hello"; "World"] dir w eq_refl ltac:(discriminate) Hw)
    as (w' & doc & Hsave & Hfile & _ & Hlines).
  exists w', doc. split; [exact Hsave |]. split; [exact Hfile |].
  apply Hlines. repeat constructor.
Qed.



(** C7: for each of the three selectors, when the response dict lacks the
    field of the selector, the renderer raises nothing and writes the title
    heading, the sub-heading of the selector and the heading of the
    section, with no entry after it. *)
Theorem C7_missing_field_empty_section
    (dt field title : string) (line : string → string)
    (entries : list (string * pyval)) (dir : Path) (w : World) :
  (dt, field, title, line) ∈ sections →
  entries_lookup entries field = None →
  can_write w dir →
  ∃ w',
    save_as_markdown (PDict entries) dir dt w = (Returned tt, w')
    ∧ files w' !! results_file dir
      = Some (title_heading +:+ sub_heading dt +:+ title +:+ LF +:+ LF).
Proof.
  intros Hin Hl Hw. apply save_as_markdown_written; [| exact Hw].
  exact (md_content_absent _ _ _ _ _ Hin Hl).
Qed.

(** C9: for each of the three selectors, a response whose selected field
    is the empty list and a response without that field give the same
    document, and the renderer does the same with both. *)
Theorem C9_empty_list_as_absent
    (dt field title : string) (line : string → string)
    (present absent : list (string * pyval)) (dir : Path) (w : World) :
  (dt, field, title, line) ∈ sections →
  entries_lookup present field = Some (PList []) →
  entries_lookup absent field = None →
  md_content (PDict present) dt = md_content (PDict absent) dt
  ∧ save_as_markdown (PDict present) dir dt w
    = save_as_markdown (PDict absent) dir dt w.
Proof.
  intros Hin Hp Ha.
  assert (md_content (PDict present) dt = md_content (PDict absent) dt) as Heq.
  { rewrite !(md_content_section _ _ _ _ _ Hin). simpl.
    now rewrite !entries_get_lookup, Hp, Ha. }
  split; [exact Heq | now apply save_as_markdown_ext].
Qed.

(** C10: for each of the three selectors, two response dicts that agree on
    the selected field give the same document, and the renderer does the
    same with both: no other field has any influence. *)
Theorem C10_only_selected_field_matters
    (dt field title : string) (line : string → string)
    (d1 d2 : list (string * pyval)) (dir : Path) (w : World) :
  (dt, field, title, line) ∈ sections →
  entries_lookup d1 field = entries_lookup d2 field →
  md_content (PDict d1) dt = md_content (PDict d2) dt
  ∧ save_as_markdown (PDict d1) dir dt w = save_as_markdown (PDict d2) dir dt w.
Proof.
  intros Hin Hagree.
  assert (md_content (PDict d1) dt = md_content (PDict d2) dt) as Heq.
  { rewrite !(md_content_section _ _ _ _ _ Hin). simpl.
    now rewrite !entries_get_lookup, Hagree. }
  split; [exact Heq | now apply save_as_markdown_ext].
Qed.

(** ** What a statement leaves alone *)


Lemma only_new_dirs_refl (w : World) : only_new_dirs w w.
Proof. by repeat split. Qed.

Lemma only_new_dirs_trans (w1 w2 w3 : World) :
  only_new_dirs w1 w2 → only_new_dirs w2 w3 → only_new_dirs w1 w3.
Proof.
  intros (?&?&?&?&?) (?&?&?&?&?). repeat split; try congruence. set_solver.
Qed.

Lemma os_mkdir_frame (p : Path) (w : World) :
  only_new_dirs w (os_mkdir p w).2.
Proof.
  unfold os_mkdir. destruct (resolve_parent w p); [apply only_new_dirs_refl |].
  destruct (is_dir w p || is_file w p); [apply only_new_dirs_refl |].
  repeat split. simpl. set_solver.
Qed.

Lemma mkdir_exist_ok_arm_frame (p : Path) (e : os_error) (w : World) :
  (mkdir_exist_ok_arm p e w).2 = w.
Proof. unfold mkdir_exist_ok_arm. now destruct (is_dir w p). Qed.

Lemma mkdir_exist_ok_frame (p : Path) (w : World) :
  only_new_dirs w (mkdir_exist_ok p w).2.
Proof.
  unfold mkdir_exist_ok. pose proof (os_mkdir_frame p w) as H.
  destruct (os_mkdir p w) as [[[]|e] w1]; simpl in *; [exact H |].
  destruct e as [| | [] | | |]; simpl; try exact H.
  all: now rewrite mkdir_exist_ok_arm_frame.
Qed.

Lemma mkdir_parents_rev_frame (rp : list string) (w : World) :
  only_new_dirs w (mkdir_parents_rev rp w).2.
Proof.
  revert w. induction rp as [|c rp IH]; intros w; simpl.
  - pose proof (os_mkdir_frame [] w) as H.
    destruct (os_mkdir [] w) as [[[]|e] w1]; simpl in *; [exact H |].
    destruct e as [| | [] | | |]; simpl; try exact H.
    all: now rewrite mkdir_exist_ok_arm_frame.
  - pose proof (os_mkdir_frame (rev rp ++ [c]) w) as H.
    destruct (os_mkdir (rev rp ++ [c]) w) as [[[]|e] w1]; simpl in *; [exact H |].
    destruct e as [| | [] | | |]; simpl; try exact H.
    all: try (now rewrite mkdir_exist_ok_arm_frame).
    unfold bind. pose proof (IH w1) as H1.
    destruct (mkdir_parents_rev rp w1) as [[[]|e] w2]; simpl in *.
    + eapply only_new_dirs_trans; [exact H |].
      eapply only_new_dirs_trans; [exact H1 |]. apply mkdir_exist_ok_frame.
    + eapply only_new_dirs_trans; eassumption.
Qed.

(** [mkdir] raises nothing but an [OSError]. *)
Lemma os_mkdir_raises (p : Path) (w w' : World) (e : exn) :
  os_mkdir p w = (Raised e, w') → ∃ c, e = OSError c.
Proof.
  unfold os_mkdir. destruct (resolve_parent w p); [intros [= <- _]; eauto |].
  destruct (is_dir w p || is_file w p); intros [= <- _]; eauto.
Qed.

Lemma mkdir_exist_ok_arm_raises (p : Path) (c : os_error) (w w' : World) (e : exn) :
  mkdir_exist_ok_arm p c w = (Raised e, w') → e = OSError c.
Proof. unfold mkdir_exist_ok_arm. destruct (is_dir w p); now intros [= <- _]. Qed.

Lemma mkdir_exist_ok_raises (p : Path) (w w' : World) (e : exn) :
  mkdir_exist_ok p w = (Raised e, w') → ∃ c, e = OSError c.
Proof.
  unfold mkdir_exist_ok.
  destruct (os_mkdir p w) as [[[]|e0] w1] eqn:H; [discriminate |].
  destruct (os_mkdir_raises _ _ _ _ H) as [c ->].
  destruct c; try (intros H'; apply mkdir_exist_ok_arm_raises in H'; eauto).
  intros [= <- _]; eauto.
Qed.

Lemma mkdir_parents_rev_raises (rp : list string) (w w' : World) (e : exn) :
  mkdir_parents_rev rp w = (Raised e, w') → ∃ c, e = OSError c.
Proof.
  revert w w' e. induction rp as [|x rp IH]; intros w w' e; simpl.
  - destruct (os_mkdir [] w) as [[[]|e0] w1] eqn:H; [discriminate |].
    destruct (os_mkdir_raises _ _ _ _ H) as [c ->].
    destruct c; try (intros H'; apply mkdir_exist_ok_arm_raises in H'; eauto).
    intros [= <- _]; eauto.
  - destruct (os_mkdir (rev rp ++ [x]) w) as [[[]|e0] w1] eqn:H; [discriminate |].
    destruct (os_mkdir_raises _ _ _ _ H) as [c ->].
    destruct c; try (intros H'; apply mkdir_exist_ok_arm_raises in H'; eauto).
    unfold bind. destruct (mkdir_parents_rev rp w1) as [[[]|e1] w2] eqn:H1.
    + apply mkdir_exist_ok_raises.
    + intros [= <- _]. eapply IH, H1.
Qed.

Lemma Path_mkdir_raises (p : Path) (w w' : World) (e : exn) :
  Path_mkdir p w = (Raised e, w') → ∃ c, e = OSError c.
Proof. apply mkdir_parents_rev_raises. Qed.

Lemma Path_mkdir_frame (p : Path) (w : World) :
  only_new_dirs w (Path_mkdir p w).2.
Proof. apply mkdir_parents_rev_frame. Qed.

(** ** The request dispatcher *)


Ltac run_crawl_site :=
  unfold crawl_site, try_except_RequestException, bind, print, requests_get,
    raise_for_status, Response_json, sys_exit, raise, ret; simpl;
  fold firecrawl_api_url.

Lemma crawl_site_world (u : string) (d : Z) (dt : string) (l : Z) (w : World) :
  let w' := (crawl_site u d dt l w).2 in
  dirs w' = dirs w ∧ files w' = files w ∧ remote w' = remote w
  ∧ issued w' = issued w ++ [request_of u d dt l].
Proof.
  run_crawl_site. unfold request_of, firecrawl_api_url.
  destruct (remote w _) as [cls msg | r]; simpl; [done |].
  destruct ((400 <=? status_code r) && (status_code r <? 500)); simpl; [done |].
  destruct ((500 <=? status_code r) && (status_code r <? 600)); simpl; [done |].
  destruct (body r); simpl; done.
Qed.

Lemma crawl_site_result (u : string) (d : Z) (dt : string) (l : Z) (w : World) :
  (crawl_site u d dt l w).1 =
    match remote w (request_of u d dt l) with
    | Failed _ _ => Raised (SystemExit 1)
    | Answered r =>
        if bool_decide (error_status (status_code r)) then Raised (SystemExit 1)
        else match body r with
             | inr v => Returned v
             | inl _ => Raised (SystemExit 1)
             end
    end.
Proof.
  run_crawl_site. unfold request_of, firecrawl_api_url, error_status.
  destruct (remote w _) as [cls msg | r]; simpl; [done |].
  destruct ((400 <=? status_code r) && (status_code r <? 500)) eqn:E1; simpl.
  { rewrite bool_decide_eq_true_2; [done | lia]. }
  destruct ((500 <=? status_code r) && (status_code r <? 600)) eqn:E2; simpl.
  { rewrite bool_decide_eq_true_2; [done | lia]. }
  rewrite bool_decide_eq_false_2 by lia.
  destruct (body r); simpl; done.
Qed.


Lemma main_setup (args : Namespace) (w : World) :
  main args w =
    (let* output_dir := setup args in
     let* result := crawl_site (url args) (depth args) (dataType args)
                      (requestLimit args) in
     save_as_markdown result output_dir (dataType args)) w.
Proof.
  unfold main, setup, bind, lift, ret.
  destruct (output_dir_of (url args)) as [dir|e]; [|reflexivity].
  destruct (Path_mkdir dir w) as [[[]|e] w1]; [|reflexivity].
  destruct (print _ w1) as [[[]|e] w2]; reflexivity.
Qed.

Lemma setup_frame (args : Namespace) (w : World) :
  let w' := (setup args w).2 in
  files w' = files w ∧ issued w' = issued w ∧ remote w' = remote w.
Proof.
  unfold setup, bind, lift, ret, print.
  destruct (output_dir_of (url args)) as [dir|e]; simpl; [|done].
  pose proof (Path_mkdir_frame dir w) as (?&?&?&?&?).
  destruct (Path_mkdir dir w) as [[[]|e] w1]; simpl in *; done.
Qed.

Lemma save_as_markdown_issued (data : pyval) (dir : Path) (dt : string) (w : World) :
  issued (save_as_markdown data dir dt w).2 = issued w.
Proof.
  unfold save_as_markdown, bind, lift, write_text, print.
  destruct (md_content data dt); simpl; [|done].
  destruct (resolve_parent w _); simpl; [done |].
  destruct (is_dir w _); simpl; done.
Qed.

(** C2: whatever the URL, the depth, the selector and the request limit
    (so in particular for a depth of at least 0, a limit of at least 1 and
    one of the three selectors), [crawl_site] issues exactly one request, a
    GET to the fixed endpoint whose query parameters are, in this order,
    [url], [depth], [dataType] and [limit], with the values it was given,
    the request limit under the name [limit]; and a run of the program
    issues this request with the values of the command line, or no request
    at all when a step before it raises ([urlparse] rejects the URL, or
    the output directory cannot be made). *)
Theorem C2_request_parameters (args : Namespace) (w : World) :
  issued (crawl_site (url args) (depth args) (dataType args) (requestLimit args) w).2
  = issued w
    ++ [ {| req_method := "GET";
            req_url := "https://api.firecrawl.com/crawl";
            req_params := [("url", PStr (url args));
                           ("depth", PInt (depth args));
                           ("dataType", PStr (dataType args));
                           ("limit", PInt (requestLimit args))] |} ]
  ∧ (issued (run args w).2 = issued w ++ [crawl_request args]
     ∨ issued (run args w).2 = issued w
       ∧ ∃ e, (setup args w).1 = Raised e).
Proof.
  split; [apply crawl_site_world |].
  unfold run. rewrite main_setup. unfold bind.
  pose proof (setup_frame args w) as (_ & Hi & _).
  destruct (setup args w) as [[dir|e] w1]; simpl in *; [left | right; eauto].
  pose proof (crawl_site_world (url args) (depth args) (dataType args)
                (requestLimit args) w1) as (_ & _ & _ & Hi2).
  destruct (crawl_site _ _ _ _ w1) as [[v|e] w2]; simpl in *.
  - pose proof (save_as_markdown_issued v dir (dataType args) w2) as Hi3.
    destruct (save_as_markdown v dir (dataType args) w2) as [r w3]; simpl in *.
    now rewrite Hi3, Hi2, Hi.
  - now rewrite Hi2, Hi.
Qed.


(** A run whose request fails ends with exit status 1 and leaves the files
    as they were. *)
Lemma failed_request_run (args : Namespace) (w : World) :
  request_fails args w →
  (run args w).1 = 1 ∧ files (run args w).2 = files w.
Proof.
  intros Hfail. unfold run. rewrite main_setup. unfold bind.
  pose proof (setup_frame args w) as (Hf & _ & Hr).
  destruct (setup args w) as [[dir|e] w1] eqn:Hsetup; simpl in *.
  - pose proof (crawl_site_world (url args) (depth args) (dataType args)
                  (requestLimit args) w1) as (_ & Hf2 & _ & _).
    pose proof (crawl_site_result (url args) (depth args) (dataType args)
                  (requestLimit args) w1) as Hres.
    unfold request_fails in Hfail. rewrite Hr in Hres.
    change (request_of _ _ _ _) with (crawl_request args) in Hres.
    destruct (crawl_site _ _ _ _ w1) as [res w2]; simpl in *.
    destruct (remote w (crawl_request args)) as [cls msg | r].
    + subst res. simpl. split; [reflexivity | congruence].
    + rewrite bool_decide_eq_true_2 in Hres by exact Hfail.
      subst res. simpl. split; [reflexivity | congruence].
  - split; [| exact Hf].
    (* the set-up raises no [SystemExit] *)
    unfold setup, bind, lift, ret, print in Hsetup.
    destruct (output_dir_of (url args)) as [dir|e0] eqn:Hdir.
    + destruct (Path_mkdir dir w) as [[[]|e1] w1'] eqn:Hmk; [discriminate |].
      injection Hsetup as <- <-.
      destruct (Path_mkdir_raises _ _ _ _ Hmk) as [c ->]. reflexivity.
    + injection Hsetup as <- <-. unfold output_dir_of in Hdir.
      destruct (urlparse_netloc (url args)) eqn:Hn; [discriminate |].
      injection Hdir as <-. unfold urlparse_netloc in Hn.
      repeat match type of Hn with
             | (if ?c then _ else _) = _ => destruct c
             | (let _ := _ in _) = _ => cbv zeta in Hn
             end; try discriminate; now injection Hn as <-.
Qed.

(** ** Making the output directory *)

Lemma is_dir_new (p q : Path) (w : World) :
  is_dir (set_dirs ({[p]} ∪ dirs w) w) q = is_dir w q || bool_decide (q = p).
Proof.
  unfold is_dir; simpl.
  destruct (bool_decide (q = [])), (is_root q); simpl; try reflexivity.
  rewrite <- bool_decide_or. apply bool_decide_ext.
  rewrite elem_of_union, elem_of_singleton. tauto.
Qed.

Lemma is_dir_same_dirs (w1 w2 : World) (q : Path) :
  dirs w1 = dirs w2 → is_dir w1 q = is_dir w2 q.
Proof. unfold is_dir. now intros ->. Qed.

Lemma is_file_same_files (w1 w2 : World) (q : Path) :
  files w1 = files w2 → is_file w1 q = is_file w2 q.
Proof. unfold is_file. now intros ->. Qed.

Lemma is_dir_mono (w w' : World) (q : Path) :
  only_new_dirs w w' → is_dir w q = true → is_dir w' q = true.
Proof.
  intros (_&_&_&_&Hsub). unfold is_dir.
  destruct (bool_decide (q = [])), (is_root q); simpl; try reflexivity.
  intros H%bool_decide_eq_true. apply bool_decide_eq_true. set_solver.
Qed.

Lemma os_mkdir_cases (p : Path) (w : World) : os_mkdir_case p w (os_mkdir p w).
Proof.
  unfold os_mkdir, resolve_parent.
  destruct (is_file w (path_parent p)) eqn:Hf; [now apply mkdir_not_a_directory |].
  destruct (is_dir w (path_parent p)) eqn:Hd; simpl; [| now apply mkdir_no_parent].
  destruct (is_dir w p) eqn:Hp; simpl.
  { apply mkdir_exists; auto. now rewrite Hp. }
  destruct (is_file w p) eqn:Hq; simpl.
  - apply mkdir_exists; auto. now rewrite Hp, Hq.
  - now apply mkdir_made.
Qed.

Lemma path_parent_snoc_cases (l : Path) (c : string) :
  path_parent (l ++ [c]) = l ∨ l = [] ∧ is_root [c] = true.
Proof.
  destruct (decide (c = "/" ∨ c = "//")) as [Hc | Hc].
  - destruct l as [|a l]; [right | left].
    + split; [reflexivity |]. unfold is_root. apply bool_decide_eq_true.
      destruct Hc as [-> | ->]; auto.
    + destruct l as [|b l]; simpl; [reflexivity |]. f_equal. f_equal.
      clear. revert b; induction l as [|x l IH]; intros b; simpl; [reflexivity |].
      f_equal. apply IH.
  - left. apply path_parent_snoc; intros ->; apply Hc; auto.
Qed.

Lemma is_dir_root (w : World) (p : Path) : is_root p = true → is_dir w p = true.
Proof. unfold is_dir. intros ->. now rewrite orb_true_r. Qed.

Lemma path_parent_root (p : Path) : is_root p = true → path_parent p = p.
Proof.
  unfold is_root. intros [-> | ->]%bool_decide_eq_true; reflexivity.
Qed.

(** When [os.mkdir] finds no parent, the path has a last part and the
    parent is the path without it. *)
Lemma no_parent_snoc (rp : list string) (w : World) :
  is_dir w (path_parent (rev rp)) = false →
  ∃ c rp', rp = c :: rp' ∧ path_parent (rev rp) = rev rp'.
Proof.
  destruct rp as [|c rp']; simpl; [discriminate |].
  intros H. exists c, rp'. split; [reflexivity |].
  destruct (path_parent_snoc_cases (rev rp') c) as [-> | [Hnil Hroot]]; [reflexivity |].
  rewrite Hnil in H. change ([] ++ [c]) with [c] in H.
  rewrite (path_parent_root _ Hroot), (is_dir_root _ _ Hroot) in H. discriminate.
Qed.

Ltac mkdir_step p w := destruct (os_mkdir_cases p w).

Lemma mkdir_arm_returned (p : Path) (e : os_error) (w : World) :
  is_dir w p = true → mkdir_exist_ok_arm p e w = (Returned (), w).
Proof. unfold mkdir_exist_ok_arm. now intros ->. Qed.

Lemma mkdir_arm_raised (p : Path) (e : os_error) (w : World) :
  is_dir w p = false → mkdir_exist_ok_arm p e w = (Raised (OSError e), w).
Proof. unfold mkdir_exist_ok_arm. now intros ->. Qed.

Lemma mkdir_arm_returned_inv (p : Path) (e : os_error) (w w1 : World) :
  mkdir_exist_ok_arm p e w = (Returned (), w1) → w1 = w ∧ is_dir w p = true.
Proof.
  unfold mkdir_exist_ok_arm. destruct (is_dir w p); [| discriminate].
  intros [= Heq]. now split.
Qed.

Lemma mkdir_arm_raised_inv (p : Path) (e : os_error) (w w1 : World) (x : exn) :
  mkdir_exist_ok_arm p e w = (Raised x, w1) → w1 = w ∧ is_dir w p = false.
Proof.
  unfold mkdir_exist_ok_arm. destruct (is_dir w p); [discriminate |].
  intros [= _ Heq]. now split.
Qed.

(** A returned [mkdir] leaves a directory. *)
Lemma mkdir_exist_ok_returned (p : Path) (w w1 : World) :
  mkdir_exist_ok p w = (Returned (), w1) → is_dir w1 p = true.
Proof.
  unfold mkdir_exist_ok. mkdir_step p w; try discriminate.
  - now intros [-> ?]%mkdir_arm_returned_inv.
  - now intros [-> ?]%mkdir_arm_returned_inv.
  - intros [= <-]. rewrite is_dir_new, bool_decide_eq_true_2 by reflexivity.
    apply orb_true_r.
Qed.

Lemma mkdir_parents_rev_returned (rp : list string) (w w1 : World) :
  mkdir_parents_rev rp w = (Returned (), w1) → is_dir w1 (rev rp) = true.
Proof.
  revert w w1. induction rp as [|c rp IH]; intros w w1; simpl.
  - intros _. reflexivity.
  - mkdir_step (rev rp ++ [c]) w.
    + now intros [-> ?]%mkdir_arm_returned_inv.
    + unfold bind. destruct (mkdir_parents_rev rp w) as [[[]|e] w2]; [| discriminate].
      apply mkdir_exist_ok_returned.
    + now intros [-> ?]%mkdir_arm_returned_inv.
    + intros [= <-]. rewrite is_dir_new, bool_decide_eq_true_2 by reflexivity.
      apply orb_true_r.
Qed.

(** [mkdir] makes no directory outside the prefixes of its path. *)
Lemma os_mkdir_other_dirs (p q : Path) (w : World) :
  q ≠ p → is_dir (os_mkdir p w).2 q = is_dir w q.
Proof.
  intros Hq. mkdir_step p w; simpl; try reflexivity.
  rewrite is_dir_new, bool_decide_eq_false_2 by exact Hq. apply orb_false_r.
Qed.

Lemma mkdir_exist_ok_other_dirs (p q : Path) (w : World) :
  q ≠ p → is_dir (mkdir_exist_ok p w).2 q = is_dir w q.
Proof.
  intros Hq. unfold mkdir_exist_ok. pose proof (os_mkdir_other_dirs p q w Hq) as H.
  destruct (os_mkdir p w) as [[[]|e] w1]; simpl in *; [exact H |].
  destruct e as [| | [] | | |]; simpl; try exact H.
  all: now rewrite mkdir_exist_ok_arm_frame.
Qed.

Lemma mkdir_parents_rev_other_dirs (rp : list string) (q : Path) (w : World) :
  ¬ q `prefix_of` rev rp → is_dir (mkdir_parents_rev rp w).2 q = is_dir w q.
Proof.
  revert w. induction rp as [|c rp IH]; intros w Hq; simpl in *.
  - pose proof (os_mkdir_other_dirs [] q w) as H.
    destruct (os_mkdir [] w) as [[[]|e] w1]; simpl in *;
      [apply H; intros ->; now apply Hq |].
    assert (is_dir w1 q = is_dir w q) as H' by (apply H; intros ->; now apply Hq).
    destruct e as [| | [] | | |]; simpl; try exact H'.
    all: now rewrite mkdir_exist_ok_arm_frame.
  - assert (q ≠ rev rp ++ [c]) as Hne by (intros ->; now apply Hq).
    assert (¬ q `prefix_of` rev rp) as Hpre
      by (intros Hp; apply Hq; now apply prefix_app_r).
    pose proof (os_mkdir_other_dirs (rev rp ++ [c]) q w Hne) as H.
    destruct (os_mkdir (rev rp ++ [c]) w) as [[[]|e] w1]; simpl in *; [exact H |].
    destruct e as [| | [] | | |]; simpl; try exact H.
    all: try (now rewrite mkdir_exist_ok_arm_frame).
    unfold bind. pose proof (IH w1 Hpre) as H1.
    destruct (mkdir_parents_rev rp w1) as [[[]|e] w2]; simpl in *.
    + rewrite mkdir_exist_ok_other_dirs by exact Hne. congruence.
    + congruence.
Qed.

(** A [mkdir] that raises has made no directory of its path. *)
Lemma mkdir_parents_rev_raised (rp : list string) (w w1 : World) (e : exn) :
  mkdir_parents_rev rp w = (Raised e, w1) →
  is_dir w (rev rp) = false → is_dir w1 (rev rp) = false.
Proof.
  intros Hmk Hnd.
  destruct rp as [|c rp]; [discriminate |]. simpl in *.
  revert Hmk. mkdir_step (rev rp ++ [c]) w.
  - now intros [-> ?]%mkdir_arm_raised_inv.
  - unfold bind.
    pose proof (mkdir_parents_rev_other_dirs rp (rev rp ++ [c]) w
                  (prefix_snoc_not _ _)) as Hother.
    destruct (mkdir_parents_rev rp w) as [[[]|e1] w2] eqn:Hrec; simpl in *.
    + unfold mkdir_exist_ok. mkdir_step (rev rp ++ [c]) w2; try discriminate.
      * intros [-> ?]%mkdir_arm_raised_inv. congruence.
      * intros [= _ <-]. congruence.
      * intros [-> ?]%mkdir_arm_raised_inv. congruence.
    + intros [= _ <-]. congruence.
  - now intros [-> ?]%mkdir_arm_raised_inv.
  - discriminate.
Qed.

Lemma path_parent_prefix (p : Path) : path_parent p `prefix_of` p.
Proof.
  destruct p as [|a [|b p]]; simpl.
  - reflexivity.
  - case_bool_decide; [reflexivity | apply prefix_nil].
  - apply prefix_cons. clear a. revert b. induction p as [|c p IH]; intros b; simpl.
    + apply prefix_nil.
    + apply prefix_cons, IH.
Qed.

Lemma os_mkdir_agree (p : Path) (w1 w2 : World) :
  agree p w1 w2 →
  (os_mkdir p w1).1 = (os_mkdir p w2).1
  ∧ dirs (os_mkdir p w1).2 = dirs (os_mkdir p w2).2.
Proof.
  intros [Hd Hf]. unfold os_mkdir, resolve_parent.
  rewrite !(is_dir_same_dirs w1 w2) by exact Hd.
  rewrite (Hf (path_parent p)) by apply path_parent_prefix.
  rewrite (Hf p) by reflexivity.
  destruct (is_file w2 (path_parent p)); [done |].
  destruct (is_dir w2 (path_parent p)); simpl; [| done].
  destruct (is_dir w2 p || is_file w2 p); simpl; [done |].
  now rewrite Hd.
Qed.

Lemma agree_prefix (p p' : Path) (w1 w2 : World) :
  p' `prefix_of` p → agree p w1 w2 → agree p' w1 w2.
Proof.
  intros Hp [Hd Hf]. split; [exact Hd |]. intros q Hq. apply Hf. now trans p'.
Qed.

Lemma agree_after (p : Path) (w1 w2 w1' w2' : World) :
  agree p w1 w2 → only_new_dirs w1 w1' → only_new_dirs w2 w2' →
  dirs w1' = dirs w2' → agree p w1' w2'.
Proof.
  intros [_ Hf] (Hf1&_) (Hf2&_) Hd. split; [exact Hd |]. intros q Hq.
  rewrite (is_file_same_files w1' w1), (is_file_same_files w2' w2) by assumption.
  now apply Hf.
Qed.

Lemma mkdir_exist_ok_arm_agree (p : Path) (e : os_error) (w1 w2 : World) :
  dirs w1 = dirs w2 →
  (mkdir_exist_ok_arm p e w1).1 = (mkdir_exist_ok_arm p e w2).1
  ∧ dirs (mkdir_exist_ok_arm p e w1).2 = dirs (mkdir_exist_ok_arm p e w2).2.
Proof.
  intros Hd. unfold mkdir_exist_ok_arm. rewrite (is_dir_same_dirs w1 w2) by exact Hd.
  now destruct (is_dir w2 p).
Qed.

Lemma mkdir_exist_ok_agree (p : Path) (w1 w2 : World) :
  agree p w1 w2 →
  (mkdir_exist_ok p w1).1 = (mkdir_exist_ok p w2).1
  ∧ dirs (mkdir_exist_ok p w1).2 = dirs (mkdir_exist_ok p w2).2.
Proof.
  intros Ha. unfold mkdir_exist_ok.
  destruct (os_mkdir_agree p w1 w2 Ha) as [Hr Hd].
  destruct (os_mkdir p w1) as [r1 v1], (os_mkdir p w2) as [r2 v2]; simpl in *.
  subst r2. destruct r1 as [[]|e]; [done |].
  destruct e as [| | [] | | |]; try done.
  all: now apply mkdir_exist_ok_arm_agree.
Qed.

Lemma mkdir_parents_rev_agree (rp : list string) (w1 w2 : World) :
  agree (rev rp) w1 w2 →
  (mkdir_parents_rev rp w1).1 = (mkdir_parents_rev rp w2).1
  ∧ dirs (mkdir_parents_rev rp w1).2 = dirs (mkdir_parents_rev rp w2).2.
Proof.
  revert w1 w2. induction rp as [|c rp IH]; intros w1 w2 Ha; simpl in *.
  - destruct (os_mkdir_agree [] w1 w2 Ha) as [Hr Hd].
    destruct (os_mkdir [] w1) as [r1 v1], (os_mkdir [] w2) as [r2 v2]; simpl in *.
    subst r2. destruct r1 as [[]|e]; [done |].
    destruct e as [| | [] | | |]; try done.
    all: now apply mkdir_exist_ok_arm_agree.
  - destruct (os_mkdir_agree _ w1 w2 Ha) as [Hr Hd].
    pose proof (os_mkdir_frame (rev rp ++ [c]) w1) as F1.
    pose proof (os_mkdir_frame (rev rp ++ [c]) w2) as F2.
    destruct (os_mkdir _ w1) as [r1 v1], (os_mkdir _ w2) as [r2 v2]; simpl in *.
    subst r2. destruct r1 as [[]|e]; [done |].
    destruct e as [| | [] | | |]; try done.
    all: try (now apply mkdir_exist_ok_arm_agree).
    assert (agree (rev rp ++ [c]) v1 v2) as Ha' by (eapply agree_after; eassumption).
    assert (agree (rev rp) v1 v2) as Hap
      by (eapply agree_prefix; [| exact Ha']; now apply prefix_app_r).
    destruct (IH v1 v2 Hap) as [Hr' Hd']. unfold bind.
    pose proof (mkdir_parents_rev_frame rp v1) as G1.
    pose proof (mkdir_parents_rev_frame rp v2) as G2.
    destruct (mkdir_parents_rev rp v1) as [s1 u1], (mkdir_parents_rev rp v2) as [s2 u2];
      simpl in *.
    subst s2. destruct s1 as [[]|e]; [| done].
    apply mkdir_exist_ok_agree. eapply agree_after; eassumption.
Qed.

(** The case of [os.mkdir], with its equation [Heq]. *)
Ltac mkdir_eqn p w Heq :=
  let X := fresh in
  pose proof (os_mkdir_cases p w) as X;
  inversion X as [? Heq | ? ? Heq | ? ? ? Heq | ? ? ? ? Heq]; clear X;
  symmetry in Heq.

Lemma is_dir_added (p : Path) (w : World) :
  is_dir (set_dirs ({[p]} ∪ dirs w) w) p = true.
Proof.
  rewrite is_dir_new, bool_decide_eq_true_2 by reflexivity. apply orb_true_r.
Qed.

Lemma is_dir_kept (p q : Path) (w : World) :
  is_dir w q = true → is_dir (set_dirs ({[p]} ∪ dirs w) w) q = true.
Proof. intros H. now rewrite is_dir_new, H. Qed.

(** The cases that the facts at hand exclude. *)
Ltac impossible_case :=
  solve [ congruence
        | match goal with
          | H : is_file (set_dirs _ ?w) ?q = true |- _ =>
              change (is_file w q = true) in H; congruence
          | H : is_dir (set_dirs _ _) _ = false |- _ =>
              first [ rewrite is_dir_added in H
                    | rewrite is_dir_kept in H by assumption ];
              discriminate
          end ].

(** Making the directory a second time changes nothing and ends as the
    first time. *)
Lemma mkdir_exist_ok_twice (p : Path) (w w1 : World) (r : result ()) :
  is_file w (path_parent p) = false → is_dir w (path_parent p) = true →
  mkdir_exist_ok p w = (r, w1) → mkdir_exist_ok p w1 = (r, w1).
Proof.
  intros Hf Hd Hmk. generalize Hmk. unfold mkdir_exist_ok at 1.
  mkdir_eqn p w Heq; try impossible_case.
  - intros H'. destruct r as [[]|e].
    + apply mkdir_arm_returned_inv in H' as [-> _]. exact Hmk.
    + apply mkdir_arm_raised_inv in H' as [-> _]. exact Hmk.
  - intros [= <- <-]. unfold mkdir_exist_ok.
    match goal with
    | |- context [os_mkdir ?q ?v] => mkdir_eqn q v Heq'; try impossible_case
    end.
    apply mkdir_arm_returned, is_dir_added.
Qed.

(** Where [os.mkdir] finds the parent, [mkdir] with [parents=True] is
    [mkdir] without. *)
Lemma mkdir_parents_rev_with_parent (rp : list string) (w : World) :
  is_dir w (path_parent (rev rp)) = true →
  mkdir_parents_rev rp w = mkdir_exist_ok (rev rp) w.
Proof.
  intros Hd. destruct rp as [|c rp]; simpl in *; unfold mkdir_exist_ok.
  - mkdir_eqn (@nil string) w Heq; reflexivity.
  - mkdir_eqn (rev rp ++ [c]) w Heq; try reflexivity. congruence.
Qed.

Lemma mkdir_parents_rev_twice (rp : list string) (w w1 : World) (r : result ()) :
  mkdir_parents_rev rp w = (r, w1) → mkdir_parents_rev rp w1 = (r, w1).
Proof.
  revert w w1 r. induction rp as [|c rp IH]; intros w w1 r Hmk.
  - (* the current directory exists *)
    rewrite mkdir_parents_rev_with_parent in * by reflexivity.
    change (rev (@nil string)) with (@nil string) in *.
    generalize Hmk. unfold mkdir_exist_ok at 1.
    mkdir_eqn (@nil string) w Heq; try discriminate.
    + rewrite mkdir_arm_returned by reflexivity. intros [= _ <-]. exact Hmk.
    + rewrite mkdir_arm_returned by reflexivity. intros [= _ <-]. exact Hmk.
  - generalize Hmk. simpl mkdir_parents_rev at 1.
    mkdir_eqn (rev rp ++ [c]) w Heq.
    + intros H'. destruct r as [[]|e].
      * apply mkdir_arm_returned_inv in H' as [-> _]. exact Hmk.
      * apply mkdir_arm_raised_inv in H' as [-> _]. exact Hmk.
    + (* the parent is missing: it is made first *)
      destruct (no_parent_snoc (c :: rp) w) as (c' & rp' & [= <- <-] & Hpar);
        [assumption |].
      simpl rev in Hpar. rewrite Hpar in *.
      unfold bind. destruct (mkdir_parents_rev rp w) as [[[]|e] w2] eqn:Hrec.
      * intros Hok.
        pose proof (mkdir_parents_rev_returned _ _ _ Hrec) as Hd2.
        pose proof (mkdir_parents_rev_frame rp w) as F. rewrite Hrec in F. simpl in F.
        assert (is_file w2 (rev rp) = false) as Hf2
          by (rewrite (is_file_same_files w2 w); [assumption | apply F]).
        pose proof (mkdir_exist_ok_frame (rev rp ++ [c]) w2) as G.
        rewrite Hok in G. simpl in G.
        rewrite mkdir_parents_rev_with_parent.
        -- simpl rev. apply (mkdir_exist_ok_twice _ w2); rewrite ?Hpar; assumption.
        -- simpl rev. rewrite Hpar. eapply is_dir_mono; eassumption.
      * intros [= <- <-].
        pose proof (mkdir_parents_rev_raised _ _ _ _ Hrec ltac:(assumption)) as Hnd.
        pose proof (mkdir_parents_rev_frame rp w) as F. rewrite Hrec in F. simpl in F.
        simpl mkdir_parents_rev.
        mkdir_eqn (rev rp ++ [c]) w2 Heq2; rewrite ?Hpar in *.
        -- rewrite (is_file_same_files w2 w) in * by apply F. congruence.
        -- unfold bind. now rewrite (IH _ _ _ Hrec).
        -- congruence.
        -- congruence.
    + intros H'. destruct r as [[]|e].
      * apply mkdir_arm_returned_inv in H' as [-> _]. exact Hmk.
      * apply mkdir_arm_raised_inv in H' as [-> _]. exact Hmk.
    + intros [= <- <-].
      rewrite mkdir_parents_rev_with_parent by (now apply is_dir_kept).
      simpl rev. unfold mkdir_exist_ok.
      match goal with
      | |- context [os_mkdir ?q ?v] => mkdir_eqn q v Heq2; try impossible_case
      end.
      apply mkdir_arm_returned, is_dir_added.
Qed.

(** ** Running the program again *)

Lemma is_file_insert_ne (w : World) (p q : Path) (text : string) :
  q ≠ p →
  is_file (set_files (<[p := text]> (files w)) w) q = is_file w q.
Proof. intros Hq. unfold is_file; simpl. now rewrite lookup_insert_ne. Qed.

Lemma results_file_not_prefix (dir q : Path) :
  q `prefix_of` dir → q ≠ results_file dir.
Proof.
  intros Hq ->. rewrite results_file_eq in Hq. exact (prefix_snoc_not _ _ Hq).
Qed.

(** What [save_as_markdown] does to the files: nothing when it raises,
    and otherwise the results file holds the document. *)
Lemma save_as_markdown_files (data : pyval) (dir : Path) (dt : string) (v : World) :
  let r := save_as_markdown data dir dt v in
  dirs r.2 = dirs v ∧ remote r.2 = remote v
  ∧ (files r.2 = files v
     ∨ ∃ doc, files r.2 = <[results_file dir := doc]> (files v)).
Proof.
  unfold save_as_markdown, bind, lift, write_text, print.
  destruct (md_content data dt) as [doc|e]; simpl; [| auto].
  destruct (resolve_parent v _); simpl; [auto |].
  destruct (is_dir v _); simpl; eauto.
Qed.

(** The renderer run again, on the files it left. *)
Lemma save_as_markdown_again (data : pyval) (dir : Path) (dt : string)
    (v v3 v' : World) (r : result ()) :
  save_as_markdown data dir dt v = (r, v3) →
  dirs v' = dirs v → files v' = files v3 →
  (save_as_markdown data dir dt v').1 = r
  ∧ dirs (save_as_markdown data dir dt v').2 = dirs v'
  ∧ files (save_as_markdown data dir dt v').2 = files v3.
Proof.
  unfold save_as_markdown, bind, lift, write_text, print, resolve_parent.
  fold (results_file dir). rewrite path_parent_results_file.
  intros Hsave Hd Hf.
  rewrite !(is_dir_same_dirs v' v) by exact Hd.
  destruct (md_content data dt) as [doc|e]; simpl in *;
    [| injection Hsave as <- <-; auto].
  assert (dir ≠ results_file dir) as Hne by (now apply results_file_not_prefix).
  destruct (is_file v dir) eqn:Hfd.
  { injection Hsave as <- <-. now rewrite (is_file_same_files v' v) , Hfd. }
  destruct (is_dir v dir) eqn:Hdd; simpl in *.
  2:{ injection Hsave as <- <-. now rewrite (is_file_same_files v' v), Hfd. }
  destruct (is_dir v (results_file dir)) eqn:Hout; simpl in *.
  { injection Hsave as <- <-. now rewrite (is_file_same_files v' v), Hfd. }
  injection Hsave as <- <-. simpl in Hf.
  assert (is_file v' dir = false) as ->.
  { unfold is_file in *. rewrite Hf, lookup_insert_ne by congruence. exact Hfd. }
  simpl. repeat split. now rewrite Hf, insert_insert_eq.
Qed.

Lemma crawl_site_again (u : string) (d : Z) (dt : string) (l : Z) (v v' : World) :
  remote v' = remote v →
  (crawl_site u d dt l v').1 = (crawl_site u d dt l v).1
  ∧ dirs (crawl_site u d dt l v').2 = dirs v'
  ∧ files (crawl_site u d dt l v').2 = files v'
  ∧ remote (crawl_site u d dt l v').2 = remote v'.
Proof.
  intros Hr. pose proof (crawl_site_world u d dt l v') as (?&?&?&_).
  repeat split; try assumption. now rewrite !crawl_site_result, Hr.
Qed.

Lemma setup_returned (args : Namespace) (w w1 : World) (dir : Path) :
  setup args w = (Returned dir, w1) →
  output_dir_of (url args) = Returned dir.
Proof.
  unfold setup, bind, lift, ret, print.
  destruct (output_dir_of (url args)) as [dir'|e]; [| discriminate].
  destruct (Path_mkdir dir' w) as [[[]|e] w0]; [| discriminate].
  now intros [= <- _].
Qed.

(** The set-up run again, in a world with the directories it left and the
    same files among the prefixes of the output directory. *)
Lemma setup_again (args : Namespace) (w w1 w' : World) (r : result Path) :
  setup args w = (r, w1) →
  dirs w' = dirs w1 →
  (∀ dir q, output_dir_of (url args) = Returned dir →
            q `prefix_of` dir → is_file w' q = is_file w1 q) →
  (setup args w').1 = r
  ∧ dirs (setup args w').2 = dirs w1
  ∧ files (setup args w').2 = files w'
  ∧ remote (setup args w').2 = remote w'.
Proof.
  unfold setup, bind, lift, ret, print. intros Hsetup Hd Hf.
  destruct (output_dir_of (url args)) as [dir|e]; simpl in *;
    [| injection Hsetup as <- <-; auto].
  unfold Path_mkdir in *.
  destruct (mkdir_parents_rev (rev dir) w) as [r0 w0] eqn:Hmk.
  pose proof (mkdir_parents_rev_twice _ _ _ _ Hmk) as Htwice.
  assert (dirs w1 = dirs w0 ∧ files w1 = files w0) as [Hd1 Hf1]
    by (destruct r0 as [[]|e]; injection Hsetup as <- <-; auto).
  assert (agree (rev (rev dir)) w' w0) as Ha.
  { split; [congruence |]. intros q Hq. rewrite rev_involutive in Hq.
    rewrite (Hf dir q eq_refl Hq). now apply is_file_same_files. }
  destruct (mkdir_parents_rev_agree _ _ _ Ha) as [Hr' Hd'].
  pose proof (mkdir_parents_rev_frame (rev dir) w') as (Hf' & _ & _ & Hrem' & _).
  rewrite Htwice in Hr', Hd'. simpl in Hr', Hd'.
  destruct (mkdir_parents_rev (rev dir) w') as [r' w0']; simpl in *. subst r'.
  destruct r0 as [[]|e]; injection Hsetup as <- <-; simpl; repeat split; congruence.
Qed.

Lemma main_eq (args : Namespace) (w : World) :
  main args w =
    match setup args w with
    | (Returned dir, w1) =>
        match crawl_site (url args) (depth args) (dataType args)
                (requestLimit args) w1 with
        | (Returned v, w2) => save_as_markdown v dir (dataType args) w2
        | (Raised e, w2) => (Raised e, w2)
        end
    | (Raised e, w1) => (Raised e, w1)
    end.
Proof. rewrite main_setup. reflexivity. Qed.

Lemma main_again (args : Namespace) (w : World) :
  (main args (main args w).2).1 = (main args w).1
  ∧ dirs (main args (main args w).2).2 = dirs (main args w).2
  ∧ files (main args (main args w).2).2 = files (main args w).2.
Proof.
  destruct (main args w) as [r wf] eqn:Hmain. simpl.
  rewrite main_eq in Hmain. rewrite main_eq.
  destruct (setup args w) as [[dir|e] w1] eqn:Hsetup.
  - pose proof (setup_returned _ _ _ _ Hsetup) as Hdir.
    pose proof (setup_frame args w) as (_ & _ & Hrem1). rewrite Hsetup in Hrem1.
    simpl in Hrem1.
    pose proof (crawl_site_world (url args) (depth args) (dataType args)
                  (requestLimit args) w1) as (Hd2 & Hf2 & Hrem2 & _).
    destruct (crawl_site _ _ _ _ w1) as [[v|e] w2] eqn:Hcrawl; simpl in Hd2, Hf2, Hrem2.
    + pose proof (save_as_markdown_files v dir (dataType args) w2)
        as (Hd3 & Hrem3 & Hf3).
      rewrite Hmain in Hd3, Hrem3, Hf3. simpl in Hd3, Hrem3, Hf3.
      destruct (setup_again args w w1 wf _ Hsetup) as (Hs1 & Hs2 & Hs3 & Hs4).
      { congruence. }
      { intros dir' q Hdir' Hq. assert (dir' = dir) as -> by congruence.
        unfold is_file. destruct Hf3 as [-> | [doc ->]].
        - now rewrite Hf2.
        - rewrite lookup_insert_ne by (apply not_eq_sym; now apply results_file_not_prefix).
          now rewrite Hf2. }
      destruct (setup args wf) as [r1' w1']; simpl in *. subst r1'.
      destruct (crawl_site_again (url args) (depth args) (dataType args)
                  (requestLimit args) w1 w1') as (Hc1 & Hc2 & Hc3 & Hc4);
        [congruence |].
      rewrite Hcrawl in Hc1. simpl in Hc1.
      destruct (crawl_site _ _ _ _ w1') as [rc' w2']; simpl in *. subst rc'.
      destruct (save_as_markdown_again _ _ _ _ _ w2' _ Hmain) as (A & B & C);
        [congruence | congruence |].
      destruct (save_as_markdown v dir (dataType args) w2') as [rs' w3'].
      simpl in *. repeat split; congruence.
    + injection Hmain as <- <-.
      destruct (setup_again args w w1 w2 _ Hsetup) as (Hs1 & Hs2 & Hs3 & Hs4).
      { congruence. }
      { intros dir' q _ _. now apply is_file_same_files. }
      destruct (setup args w2) as [r1' w1']; simpl in *. subst r1'.
      destruct (crawl_site_again (url args) (depth args) (dataType args)
                  (requestLimit args) w1 w1') as (Hc1 & Hc2 & Hc3 & Hc4);
        [congruence |].
      rewrite Hcrawl in Hc1. simpl in Hc1.
      destruct (crawl_site _ _ _ _ w1') as [rc' w2']; simpl in *. subst rc'.
      simpl. repeat split; congruence.
  - injection Hmain as <- <-.
    destruct (setup_again args w w1 w1 _ Hsetup) as (Hs1 & Hs2 & Hs3 & Hs4);
      [reflexivity | reflexivity |].
    destruct (setup args w1) as [r1' w1']; simpl in *. subst r1'. auto.
Qed.

(** C8: writing the results file replaces whatever the file held; and a
    second run of the program with the same command line, against a
    service that answers as before, ends with the same exit status and
    leaves the directories and the files exactly as the first run left
    them: the results file holds the content of one run. *)
Theorem C8_second_run_overwrites (args : Namespace) (w : World) :
  (∀ (data : pyval) (dir : Path) (doc : string) (v : World),
     md_content data (dataType args) = Returned doc →
     can_write v dir →
     files (save_as_markdown data dir (dataType args) v).2
     = <[results_file dir := doc]> (files v))
  ∧ (run args (run args w).2).1 = (run args w).1
  ∧ dirs (run args (run args w).2).2 = dirs (run args w).2
  ∧ files (run args (run args w).2).2 = files (run args w).2.
Proof.
  split.
  - intros data dir doc v Hdoc Hw.
    now rewrite (save_as_markdown_writes _ _ _ _ _ Hdoc Hw).
  - pose proof (main_again args w) as (Hr & Hd & Hf). unfold run.
    destruct (main args w) as [r1 w1]; simpl in *.
    destruct (main args w1) as [r2 w2]; simpl in *. now subst r2.
Qed.

(** ** The output directory *)

Lemma append_cons (c : ascii) (a b : string) :
  String c a +:+ b = String c (a +:+ b).
Proof. reflexivity. Qed.

Lemma string_filter_app (f : ascii → bool) (a b : string) :
  string_filter f (a +:+ b) = string_filter f a +:+ string_filter f b.
Proof.
  induction a as [|x a IH]; [reflexivity |].
  rewrite append_cons. simpl. destruct (f x); [| exact IH].
  now rewrite append_cons, IH.
Qed.

Lemma string_forallb_impl (f g : ascii → bool) (s : string) :
  (∀ c, f c = true → g c = true) →
  string_forallb f s = true → string_forallb g s = true.
Proof.
  intros Hfg. induction s as [|x s IH]; [reflexivity |]. simpl.
  intros [Hx Hs]%andb_true_iff. now rewrite (Hfg _ Hx), IH.
Qed.

Lemma string_filter_all (f : ascii → bool) (s : string) :
  string_forallb f s = true → string_filter f s = s.
Proof.
  induction s as [|x s IH]; [reflexivity |]. simpl.
  intros [-> Hs]%andb_true_iff. now rewrite IH.
Qed.

Lemma string_take_while_app (f : ascii → bool) (a b : string) :
  string_forallb f a = true →
  match b with EmptyString => true | String c _ => negb (f c) end = true →
  string_take_while f (a +:+ b) = a.
Proof.
  intros Ha Hb. induction a as [|x a IH].
  - destruct b as [|c b]; [reflexivity |]. simpl.
    apply negb_true_iff in Hb. now rewrite Hb.
  - rewrite append_cons. simpl in *. apply andb_true_iff in Ha as [-> Ha].
    now rewrite IH.
Qed.

Lemma string_take_while_all (f : ascii → bool) (s : string) :
  string_forallb f (string_take_while f s) = true.
Proof.
  induction s as [|x s IH]; [reflexivity |]. simpl.
  destruct (f x) eqn:E; [| reflexivity]. simpl. now rewrite E.
Qed.

Lemma split_at_colon_app (a b : string) :
  string_forallb (λ c, negb (Ascii.eqb c ":")) a = true →
  split_at_colon (a +:+ String ":" b) = Some (a, b).
Proof.
  induction a as [|x a IH]; [reflexivity |].
  rewrite append_cons. simpl. intros [Hx Ha]%andb_true_iff.
  apply negb_true_iff in Hx. now rewrite Hx, IH.
Qed.

(** Facts on single characters, by enumeration. *)
Ltac by_cases_on c :=
  destruct c as [[] [] [] [] [] [] [] []]; vm_compute; congruence.

Lemma scheme_char_not_colon (c : ascii) :
  scheme_char c = true → negb (Ascii.eqb c ":") = true.
Proof. by_cases_on c. Qed.

Lemma scheme_char_safe (c : ascii) :
  scheme_char c = true → negb (unsafe_url_byte c) = true.
Proof. by_cases_on c. Qed.

Lemma ascii_letter_not_c0 (c : ascii) :
  ascii_letter c = true → c0_control_or_space c = false.
Proof. by_cases_on c. Qed.

Lemma netloc_delimiter_safe (c : ascii) :
  netloc_delimiter c = true → unsafe_url_byte c = false.
Proof. by_cases_on c. Qed.

Lemma not_delimiter_not_slash (c : ascii) :
  negb (netloc_delimiter c) = true → negb (Ascii.eqb c "/") = true.
Proof. by_cases_on c. Qed.

(** The rest of the URL, once the unsafe bytes are gone, is still empty or
    still starts at its delimiter. *)
Lemma is_rest_filtered (rest : string) :
  is_rest rest = true →
  match string_filter (λ c, negb (unsafe_url_byte c)) rest with
  | EmptyString => true
  | String c _ => negb (negb (netloc_delimiter c))
  end = true.
Proof.
  destruct rest as [|c rest]; [reflexivity |]. simpl. intros Hc.
  rewrite (netloc_delimiter_safe _ Hc). simpl. now rewrite Hc.
Qed.

Lemma starts_with_app (p x : string) : starts_with p (p +:+ x) = true.
Proof.
  unfold starts_with. induction p as [|a p IH].
  - now destruct x.
  - rewrite append_cons. simpl. now destruct (ascii_dec a a).
Qed.

(** The netloc [urlsplit] cuts out of [scheme://host rest]. *)
Lemma splitnetloc_of_url (scheme host rest : string) :
  is_scheme scheme = true → is_host host = true → is_rest rest = true →
  let url := scheme +:+ "://" +:+ host +:+ rest in
  let url := string_drop_while c0_control_or_space url in
  let url := string_filter (λ c, negb (unsafe_url_byte c)) url in
  let url := after_scheme url in
  starts_with "//" url = true ∧ splitnetloc url = host.
Proof.
  intros Hs Hh Hr. cbv zeta.
  destruct scheme as [|c0 scheme]; [discriminate |].
  apply andb_true_iff in Hs as [Hc0 Hs].
  assert (string_forallb (λ c, negb (netloc_delimiter c)) host = true) as Hh1
    by (eapply string_forallb_impl; [| exact Hh]; intros c [? _]%andb_true_iff; assumption).
  assert (string_forallb (λ c, negb (unsafe_url_byte c)) host = true) as Hh2
    by (eapply string_forallb_impl; [| exact Hh]; intros c [_ ?]%andb_true_iff; assumption).
  rewrite append_cons. simpl string_drop_while.
  rewrite (ascii_letter_not_c0 _ Hc0). rewrite <- append_cons.
  rewrite !string_filter_app.
  rewrite (string_filter_all _ (String c0 scheme))
    by (eapply string_forallb_impl; [apply scheme_char_safe | exact Hs]).
  rewrite (string_filter_all _ host) by exact Hh2.
  change (string_filter _ "://") with ("://")%string.
  change (String c0 scheme +:+ "://" +:+ ?x)
    with (String c0 scheme +:+ String ":" ("//" +:+ x)).
  unfold after_scheme. rewrite split_at_colon_app
    by (eapply string_forallb_impl; [apply scheme_char_not_colon | exact Hs]).
  rewrite Hc0, Hs. simpl andb. cbv iota.
  split; [apply starts_with_app |].
  unfold splitnetloc. change (string_drop 2 ("//" +:+ ?x)) with x.
  apply string_take_while_app; [exact Hh1 |]. now apply is_rest_filtered.
Qed.

Lemma urlparse_netloc_of_url (scheme host rest : string) :
  is_scheme scheme = true → is_host host = true → is_rest rest = true →
  urlparse_netloc (scheme +:+ "://" +:+ host +:+ rest)
  = urlparse_netloc (scheme +:+ "://" +:+ host)
  ∧ ∀ d, urlparse_netloc (scheme +:+ "://" +:+ host +:+ rest) = Returned d → d = host.
Proof.
  intros Hs Hh Hr.
  destruct (splitnetloc_of_url scheme host rest Hs Hh Hr) as [Hp Hn].
  destruct (splitnetloc_of_url scheme host EmptyString Hs Hh eq_refl) as [Hp' Hn'].
  rewrite append_nil_r in Hp', Hn'.
  cbv zeta in Hp, Hn, Hp', Hn'. unfold urlparse_netloc.
  rewrite Hp, Hn, Hp', Hn'. split; [reflexivity |].
  intros d.
  repeat match goal with |- context [if ?c then _ else _] => destruct c end;
    congruence.
Qed.

Lemma split_on_absent (sep : ascii) (s : string) :
  contains sep s = false → split_on sep s = [s].
Proof.
  unfold contains. induction s as [|x s IH]; [reflexivity |]. simpl.
  destruct (Ascii.eqb x sep); simpl; [discriminate |].
  intros H. now rewrite (IH H).
Qed.

Lemma no_delimiter_no_slash (s : string) :
  string_forallb (λ c, negb (netloc_delimiter c)) s = true →
  contains "/" s = false.
Proof.
  intros H. unfold contains. apply negb_false_iff.
  eapply string_forallb_impl; [apply not_delimiter_not_slash | exact H].
Qed.

(** A netloc holds none of [/?#]. *)
Lemma urlparse_netloc_no_delimiter (url domain : string) :
  urlparse_netloc url = Returned domain →
  string_forallb (λ c, negb (netloc_delimiter c)) domain = true.
Proof.
  unfold urlparse_netloc.
  repeat match goal with |- context [if ?c then _ else _] => destruct c end;
    try discriminate; intros [= <-]; [| reflexivity].
  apply string_take_while_all.
Qed.

(** [Path("Output") / domain] for a domain without a slash. *)
Lemma path_div_Output (domain : string) :
  contains "/" domain = false → domain ≠ EmptyString → domain ≠ "." →
  path_div (Path_of "Output") domain = ["Output"; domain].
Proof.
  intros Hs Hne Hdot. unfold path_div, path_components.
  assert (starts_with "/" domain = false) as ->.
  { destruct domain as [|c d]; [reflexivity |]. unfold starts_with.
    change (String.prefix "/" (String c d))
      with (if ascii_dec "/" c then String.prefix EmptyString d else false).
    destruct (ascii_dec "/" c) as [<- |]; [| reflexivity].
    unfold contains in Hs. simpl in Hs. discriminate. }
  rewrite (split_on_absent _ _ Hs).
  rewrite filter_cons_True by (split; assumption). reflexivity.
Qed.

(** The netloc of [scheme://host rest] is the host when [urlsplit] accepts
    it; otherwise [urlsplit] raises. *)
Lemma urlparse_netloc_accepted (scheme host rest : string) :
  is_scheme scheme = true → is_host host = true → is_rest rest = true →
  urlparse_netloc (scheme +:+ "://" +:+ host +:+ rest)
  = if netloc_accepted host then Returned host else Raised ValueError.
Proof.
  intros Hs Hh Hr.
  destruct (splitnetloc_of_url scheme host rest Hs Hh Hr) as [Hp Hn].
  cbv zeta in Hp, Hn. unfold urlparse_netloc, netloc_accepted. rewrite Hp, Hn.
  destruct (contains "[" host), (contains "]" host), (check_bracketed_netloc host),
    (isascii host), (checknetloc_nfkc host); reflexivity.
Qed.

(** An ASCII netloc without brackets passes the validations. *)
Lemma netloc_accepted_plain (netloc : string) :
  isascii netloc = true → contains "[" netloc = false → contains "]" netloc = false →
  netloc_accepted netloc = true.
Proof. intros Ha Hl Hr. unfold netloc_accepted. now rewrite Ha, Hl, Hr. Qed.

(** C5: the output directory is [Path("Output") / netloc], which is
    [Output/<netloc>] for a netloc other than the empty string and [.];
    the netloc holds no slash, so it is one part of the path.  In a URL
    [scheme://host rest] the netloc is the host, whatever the rest: two
    such URLs that differ only after the host (in the path, the query or
    the fragment) have the same output directory.  That directory is
    [Output/<host>] when [urlsplit] accepts the host, as it does every
    ASCII host without brackets; when it rejects the host, there is no
    output directory, for either URL.  And any two URLs with the same
    netloc have the same output directory. *)
Theorem C5_output_dir_from_netloc_only (scheme host rest1 rest2 : string) :
  is_scheme scheme = true → is_host host = true →
  is_rest rest1 = true → is_rest rest2 = true →
  output_dir_of (scheme +:+ "://" +:+ host +:+ rest1)
  = output_dir_of (scheme +:+ "://" +:+ host +:+ rest2)
  ∧ (netloc_accepted host = true →
       urlparse_netloc (scheme +:+ "://" +:+ host +:+ rest1) = Returned host
       ∧ output_dir_of (scheme +:+ "://" +:+ host +:+ rest1)
         = Returned (path_div (Path_of "Output") host)
       ∧ (host ≠ EmptyString → host ≠ "." →
          output_dir_of (scheme +:+ "://" +:+ host +:+ rest1)
          = Returned ["Output"; host]
          ∧ path_str ["Output"; host] = "Output/" +:+ host))
  ∧ (isascii host = true → contains "[" host = false → contains "]" host = false →
       netloc_accepted host = true)
  ∧ (netloc_accepted host = false →
       output_dir_of (scheme +:+ "://" +:+ host +:+ rest1) = Raised ValueError)
  ∧ (∀ u1 u2, urlparse_netloc u1 = urlparse_netloc u2 →
       output_dir_of u1 = output_dir_of u2).
Proof.
  intros Hs Hh H1 H2. unfold output_dir_of.
  rewrite !urlparse_netloc_accepted by assumption.
  split; [reflexivity |]. split; [| split; [apply netloc_accepted_plain |]].
  - intros ->. split; [reflexivity |]. split; [reflexivity |]. intros Hne Hdot.
    rewrite path_div_Output; [split; reflexivity | | assumption | assumption].
    apply no_delimiter_no_slash.
    eapply string_forallb_impl; [| exact Hh].
    intros c [? _]%andb_true_iff; assumption.
  - split; [now intros -> |]. intros u1 u2 Hu. now rewrite Hu.
Qed.

(** * Further properties of the renderer *)

(** X1: for a response whose [images] field is a list of URL strings, the
    renderer selected with [images] writes the two headings, the heading
    of the section and then one embed [![url](url)] per URL, each followed
    by an empty line, in the order of the list. *)
Theorem X1_images_one_embed_per_url
    (entries : list (string * pyval)) (urls : list string) (dir : Path) (w : World) :
  entries_lookup entries "images" = Some (PList (PStr <$> urls)) →
  can_write w dir →
  ∃ w' doc,
    save_as_markdown (PDict entries) dir "images" w = (Returned tt, w')
    ∧ files w' !! results_file dir = Some doc
    ∧ doc = title_heading +:+ sub_heading "images" +:+ "### Imagens encontradas:"
            +:+ LF +:+ LF
            +:+ concat_str
                  ((λ u, "![" +:+ u +:+ "](" +:+ u +:+ ")" +:+ LF +:+ LF) <$> urls)
    ∧ (Forall no_line_feed urls →
       lines doc
       = ["# Resultado do Crawling"; ""; "## Tipo de dados: images"; "";
          "### Imagens encontradas:"; ""]
         ++ concat ((λ u, ["![" +:+ u +:+ "](" +:+ u +:+ ")"; ""]) <$> urls)
         ++ [""]).
Proof.
  intros Hl Hw.
  assert (Hin : ("images", "images", "### Imagens encontradas:", image_block) ∈ sections)
    by (unfold sections; set_solver).
  pose proof (md_content_present _ _ _ _ _ _ Hin Hl) as Hdoc.
  destruct (save_as_markdown_written _ _ _ _ _ Hdoc Hw) as (w' & Hsave & Hfile).
  exists w'; eexists. split; [exact Hsave |]. split; [exact Hfile |].
  split; [reflexivity |].
  intros Hurls. rewrite lines_document by reflexivity. f_equal.
  rewrite <- (append_nil_r (concat_str _)).
  pose proof (lines_blocks (λ u, ["![" +:+ u +:+ "](" +:+ u +:+ ")"; ""]) urls
                EmptyString) as Hb.
  simpl in Hb.
  erewrite list_fmap_ext; [rewrite Hb; [reflexivity |] |].
  - eapply Forall_impl; [exact Hurls |]. intros u Hu. repeat constructor.
    repeat apply no_line_feed_app; try assumption; reflexivity.
  - intros i u _. simpl. unfold concat_str, image_block. simpl.
    rewrite ?append_assoc, append_nil_r. reflexivity.
Qed.

Lemma sections_cases (dt field title : string) (line : string → string) :
  (dt, field, title, line) ∈ sections →
  dt = "links" ∨ dt = "text" ∨ dt = "images".
Proof.
  intros Hin. unfold sections in Hin.
  repeat (apply elem_of_cons in Hin as [Heq | Hin]; [inversion Heq; auto |]).
  by apply elem_of_nil in Hin.
Qed.

Lemma selector_section (dt : string) :
  dt = "links" ∨ dt = "text" ∨ dt = "images" →
  ∃ field title line, (dt, field, title, line) ∈ sections.
Proof.
  intros [-> | [-> | ->]]; do 3 eexists; unfold sections.
  - apply list_elem_of_here.
  - apply list_elem_of_further, list_elem_of_here.
  - do 2 apply list_elem_of_further. apply list_elem_of_here.
Qed.

(** X2: every document starts with the title heading and the sub-heading
    that repeats the selector as it was given, whatever the selector and
    whatever the response. *)
Theorem X2_document_starts_with_headings (data : pyval) (dt doc : string) :
  md_content data dt = Returned doc →
  ∃ rest, doc = "# Resultado do Crawling" +:+ LF +:+ LF
                +:+ "## Tipo de dados: " +:+ dt +:+ LF +:+ LF +:+ rest.
Proof.
  intros Hdoc.
  destruct (decide (dt = "links" ∨ dt = "text" ∨ dt = "images")) as [Hk | Hu].
  - destruct (selector_section dt Hk) as (field & title & line & Hin).
    rewrite (md_content_section _ _ _ _ _ Hin) in Hdoc.
    destruct (dict_get data field (PList [])) as [v|e]; [| discriminate].
    destruct (iterate v) as [items|e]; [| discriminate].
    injection Hdoc as <-. eexists.
    unfold title_heading, sub_heading. rewrite ?append_assoc. reflexivity.
  - rewrite md_content_other in Hdoc by (intros ->; apply Hu; auto).
    injection Hdoc as <-. exists EmptyString.
    unfold title_heading, sub_heading. rewrite ?append_assoc. reflexivity.
Qed.

(** X3: the items are rendered one after the other, each on its own: for
    each of the three selectors, a response with one more item at the end
    of the selected list gives the document of the shorter list followed
    by the block of the new item. *)
Theorem X3_one_more_item_appends_its_block
    (dt field title : string) (line : string → string)
    (shorter longer : list (string * pyval)) (items : list pyval) (x : pyval) :
  (dt, field, title, line) ∈ sections →
  entries_lookup shorter field = Some (PList items) →
  entries_lookup longer field = Some (PList (items ++ [x])) →
  ∃ doc, md_content (PDict shorter) dt = Returned doc
         ∧ md_content (PDict longer) dt = Returned (doc +:+ line (format x)).
Proof.
  intros Hin Hs Hl. rewrite !(md_content_section _ _ _ _ _ Hin). simpl.
  rewrite !entries_get_lookup, Hs, Hl. simpl. eexists. split; [reflexivity |].
  f_equal. rewrite fmap_app, concat_str_app. simpl fmap.
  rewrite concat_str_cons. unfold concat_str at 3. simpl foldr.
  rewrite append_nil_r, ?append_assoc. reflexivity.
Qed.


(** X5: for each of the three selectors, a response that is not a dict (a
    list, a string, a number, [null]) makes the renderer raise
    [AttributeError] before anything is written. *)
Theorem X5_response_not_a_dict
    (dt field title : string) (line : string → string)
    (data : pyval) (dir : Path) (w : World) :
  (dt, field, title, line) ∈ sections →
  ¬ is_dict data →
  save_as_markdown data dir dt w = (Raised AttributeError, w).
Proof.
  intros Hin Hd. unfold save_as_markdown, bind, lift.
  rewrite (md_content_section _ _ _ _ _ Hin).
  destruct data; simpl; try reflexivity. now destruct Hd.
Qed.

(** X6: a selected field that is present but holds [null], a boolean or a
    number is not taken for a missing field: the loop cannot iterate it,
    the renderer raises [TypeError] and nothing is written. *)
Theorem X6_field_not_iterable
    (dt field title : string) (line : string → string)
    (entries : list (string * pyval)) (v : pyval) (dir : Path) (w : World) :
  (dt, field, title, line) ∈ sections →
  entries_lookup entries field = Some v →
  not_iterable v →
  save_as_markdown (PDict entries) dir dt w = (Raised TypeError, w).
Proof.
  intros Hin Hl Hv. unfold save_as_markdown, bind, lift.
  rewrite (md_content_section _ _ _ _ _ Hin). simpl.
  rewrite entries_get_lookup, Hl.
  destruct v; simpl; try reflexivity; now destruct Hv.
Qed.

Lemma ascii_not_continuation (c : ascii) :
  in_range 0 127 c = true → continuation_byte c = false.
Proof. by_cases_on c. Qed.

Lemma characters_ascii (s : string) :
  isascii s = true →
  characters s = (λ c, String c EmptyString) <$> list_ascii_of_string s.
Proof.
  induction s as [|c s IH]; [reflexivity |].
  unfold isascii. simpl string_forallb. intros [_ Hs]%andb_true_iff.
  simpl. rewrite (IH Hs). destruct s as [|c' s']; [reflexivity |].
  simpl in Hs. apply andb_true_iff in Hs as [Hc' _].
  now rewrite (ascii_not_continuation _ Hc').
Qed.

(** X7: a selected field that holds a string is iterated character by
    character: for an ASCII string the section gets one block per
    character. *)
Theorem X7_string_field_per_character
    (dt field title : string) (line : string → string)
    (entries : list (string * pyval)) (s : string) :
  (dt, field, title, line) ∈ sections →
  entries_lookup entries field = Some (PStr s) →
  isascii s = true →
  md_content (PDict entries) dt
  = Returned (title_heading +:+ sub_heading dt +:+ title +:+ LF +:+ LF
              +:+ concat_str ((λ c, line (String c EmptyString))
                                <$> list_ascii_of_string s)).
Proof.
  intros Hin Hl Hs. rewrite (md_content_section _ _ _ _ _ Hin). simpl.
  rewrite entries_get_lookup, Hl. simpl. rewrite (characters_ascii _ Hs).
  do 6 f_equal. rewrite <- !list_fmap_compose. reflexivity.
Qed.

(** X8: a selected field that holds an object is iterated over its keys,
    in their order: the section gets one block per key, and the values
    are not rendered. *)
Theorem X8_dict_field_per_key
    (dt field title : string) (line : string → string)
    (entries inner : list (string * pyval)) :
  (dt, field, title, line) ∈ sections →
  entries_lookup entries field = Some (PDict inner) →
  md_content (PDict entries) dt
  = Returned (title_heading +:+ sub_heading dt +:+ title +:+ LF +:+ LF
              +:+ concat_str ((λ kv, line kv.1) <$> inner)).
Proof.
  intros Hin Hl. rewrite (md_content_section _ _ _ _ _ Hin). simpl.
  rewrite entries_get_lookup, Hl. simpl.
  do 6 f_equal. rewrite <- list_fmap_compose. reflexivity.
Qed.

(** * Further properties of the dispatcher and of a run *)

Lemma crawl_site_stdout (u : string) (d : Z) (dt : string) (l : Z) (w : World) :
  stdout (crawl_site u d dt l w).2 =
    stdout w ++ sending_notice ::
      match remote w (request_of u d dt l) with
      | Failed _ msg => [error_line msg]
      | Answered r =>
          if (400 <=? status_code r) && (status_code r <? 500) then
            [error_line (pretty (status_code r) +:+ " Client Error: " +:+ reason r
                         +:+ " for url: " +:+ resp_url r)]
          else if (500 <=? status_code r) && (status_code r <? 600) then
            [error_line (pretty (status_code r) +:+ " Server Error: " +:+ reason r
                         +:+ " for url: " +:+ resp_url r)]
          else match body r with
               | inr _ => []
               | inl msg => [error_line msg]
               end
      end.
Proof.
  run_crawl_site. unfold request_of, firecrawl_api_url, sending_notice, error_line.
  destruct (remote w _) as [cls msg | r]; simpl.
  { now rewrite <- app_assoc. }
  destruct ((400 <=? status_code r) && (status_code r <? 500)); simpl.
  { now rewrite <- app_assoc. }
  destruct ((500 <=? status_code r) && (status_code r <? 600)); simpl.
  { now rewrite <- app_assoc. }
  destruct (body r); simpl; [now rewrite <- app_assoc | reflexivity].
Qed.

(** X9: [crawl_site] returns the decoded body exactly when the service
    answers with a status outside 400 to 599 and a body that decodes.
    When the request gets no answer, when the answer has an error status,
    and when its body is not JSON, it raises [SystemExit(1)]: the
    [RequestException] does not leave it. *)
Theorem X9_crawl_site_returns_or_exits
    (u : string) (d : Z) (dt : string) (l : Z) (w : World) :
  (∀ v, (crawl_site u d dt l w).1 = Returned v
        ↔ ∃ r, remote w (request_of u d dt l) = Answered r
               ∧ ¬ error_status (status_code r) ∧ body r = inr v)
  ∧ (∀ cls msg, remote w (request_of u d dt l) = Failed cls msg →
        (crawl_site u d dt l w).1 = Raised (SystemExit 1))
  ∧ (∀ r, remote w (request_of u d dt l) = Answered r →
        error_status (status_code r) →
        (crawl_site u d dt l w).1 = Raised (SystemExit 1))
  ∧ (∀ r msg, remote w (request_of u d dt l) = Answered r →
        ¬ error_status (status_code r) → body r = inl msg →
        (crawl_site u d dt l w).1 = Raised (SystemExit 1)).
Proof.
  rewrite crawl_site_result.
  destruct (remote w (request_of u d dt l)) as [cls msg | r].
  - split; [intros v; split; [discriminate | intros (r & [=] & _)] |].
    split; [reflexivity |]. split; discriminate.
  - case_bool_decide as Herr.
    + split; [intros v; split; [discriminate |] |].
      { intros (r' & [= <-] & Hok & _). now destruct Hok. }
      split; [discriminate |]. split; reflexivity.
    + destruct (body r) as [msg | v0] eqn:Hbody.
      * split; [intros v; split; [discriminate |] |].
        { intros (r' & [= <-] & _ & Hb). congruence. }
        split; [discriminate |]. split; reflexivity.
      * split; [intros v; split |].
        { intros [= <-]. eauto. }
        { intros (r' & [= <-] & _ & Hb). congruence. }
        split; [discriminate |].
        split; [intros r' [= <-] Hbad; now destruct Herr |].
        intros r' msg [= <-] _ Hb. congruence.
Qed.

(** X10: [crawl_site] prints its notice before the request; when it
    returns, nothing more; when the request gets no answer or the body is
    not JSON, one more line, the error line with the message of the
    exception. *)
Theorem X10_crawl_site_console
    (u : string) (d : Z) (dt : string) (l : Z) (w : World) :
  (∀ v, (crawl_site u d dt l w).1 = Returned v →
        stdout (crawl_site u d dt l w).2
        = stdout w ++ ["Enviando requisição para a API do Firecrawl..."])
  ∧ (∀ cls msg, remote w (request_of u d dt l) = Failed cls msg →
        stdout (crawl_site u d dt l w).2
        = stdout w ++ ["Enviando requisição para a API do Firecrawl...";
                       "Erro na requisição: " +:+ msg])
  ∧ (∀ r msg, remote w (request_of u d dt l) = Answered r →
        ¬ error_status (status_code r) → body r = inl msg →
        stdout (crawl_site u d dt l w).2
        = stdout w ++ ["Enviando requisição para a API do Firecrawl...";
                       "Erro na requisição: " +:+ msg]).
Proof.
  rewrite crawl_site_stdout, crawl_site_result. unfold error_status.
  destruct (remote w (request_of u d dt l)) as [cls msg | r].
  - split; [discriminate |]. split; [now intros ? ? [= _ <-] |]. discriminate.
  - destruct ((400 <=? status_code r) && (status_code r <? 500)) eqn:E1.
    { rewrite bool_decide_eq_true_2 by lia.
      split; [discriminate |]. split; [discriminate |].
      intros r' msg [= <-] Hok; lia. }
    destruct ((500 <=? status_code r) && (status_code r <? 600)) eqn:E2.
    { rewrite bool_decide_eq_true_2 by lia.
      split; [discriminate |]. split; [discriminate |].
      intros r' msg [= <-] Hok; lia. }
    rewrite bool_decide_eq_false_2 by lia.
    destruct (body r) as [msg | v0] eqn:Hbody.
    + split; [discriminate |]. split; [discriminate |].
      intros r' msg' [= <-] _ Hb.
      assert (msg' = msg) as -> by congruence. reflexivity.
    + split; [reflexivity |]. split; [discriminate |].
      intros r' msg' [= <-] _ Hb. congruence.
Qed.

(** ** The run, step by step *)

Lemma run_eq (args : Namespace) (w : World) :
  run args w =
    match setup args w with
    | (Returned dir, w1) =>
        match crawl_site (url args) (depth args) (dataType args)
                (requestLimit args) w1 with
        | (Returned v, w2) =>
            (exit_status (save_as_markdown v dir (dataType args) w2).1,
             (save_as_markdown v dir (dataType args) w2).2)
        | (Raised e, w2) => (exit_status (Raised e), w2)
        end
    | (Raised e, w1) => (exit_status (Raised e), w1)
    end.
Proof.
  unfold run. rewrite main_eq.
  destruct (setup args w) as [[dir|e] w1]; [| reflexivity].
  destruct (crawl_site _ _ _ _ w1) as [[v|e] w2]; [| reflexivity].
  now destruct (save_as_markdown v dir (dataType args) w2).
Qed.

Lemma urlparse_netloc_raises (u : string) (e : exn) :
  urlparse_netloc u = Raised e → e = ValueError.
Proof.
  unfold urlparse_netloc.
  repeat match goal with |- context [if ?c then _ else _] => destruct c end;
    try discriminate; now intros [= <-].
Qed.

(** The set-up raises a [ValueError] or an [OSError], before anything is
    printed or requested. *)
Lemma setup_raised (args : Namespace) (w w1 : World) (e : exn) :
  setup args w = (Raised e, w1) →
  exit_status (Raised e) = 1
  ∧ files w1 = files w ∧ issued w1 = issued w ∧ stdout w1 = stdout w
  ∧ remote w1 = remote w ∧ dirs w ⊆ dirs w1.
Proof.
  unfold setup, bind, lift, ret, print.
  destruct (output_dir_of (url args)) as [dir|e0] eqn:Hdir.
  - pose proof (Path_mkdir_frame dir w) as (?&?&?&?&?).
    destruct (Path_mkdir dir w) as [[[]|e1] w1'] eqn:Hmk; [discriminate |].
    intros [= <- <-]. destruct (Path_mkdir_raises _ _ _ _ Hmk) as [c ->].
    simpl in *. repeat split; assumption.
  - intros [= <- <-]. unfold output_dir_of in Hdir.
    destruct (urlparse_netloc (url args)) eqn:Hn; [discriminate |].
    injection Hdir as <-. rewrite (urlparse_netloc_raises _ _ Hn).
    repeat split; reflexivity.
Qed.

Lemma setup_returned_world (args : Namespace) (w w1 : World) (dir : Path) :
  setup args w = (Returned dir, w1) →
  output_dir_of (url args) = Returned dir
  ∧ is_dir w1 dir = true
  ∧ files w1 = files w ∧ issued w1 = issued w ∧ remote w1 = remote w
  ∧ stdout w1 = stdout w ++ [starting_notice]
  ∧ dirs w ⊆ dirs w1
  ∧ ∀ q, ¬ q `prefix_of` dir → is_dir w1 q = is_dir w q.
Proof.
  intros Hsetup. pose proof (setup_returned _ _ _ _ Hsetup) as Hdir.
  split; [exact Hdir |]. revert Hsetup.
  unfold setup, bind, lift, ret, print. rewrite Hdir.
  pose proof (Path_mkdir_frame dir w) as (?&?&?&?&?).
  pose proof (mkdir_parents_rev_other_dirs (rev dir)) as Hother.
  unfold Path_mkdir in *.
  destruct (mkdir_parents_rev (rev dir) w) as [[[]|e1] w0] eqn:Hmk; [| discriminate].
  intros [= <-]. apply mkdir_parents_rev_returned in Hmk as Hd.
  rewrite rev_involutive in Hd. simpl in *.
  split; [exact Hd |]. split; [assumption |]. split; [assumption |].
  split; [assumption |]. split; [unfold starting_notice; now f_equal |].
  split; [assumption |].
  intros q Hq. specialize (Hother q w). rewrite Hmk, rev_involutive in Hother.
  now apply Hother.
Qed.

(** [mkdir] returns when no prefix of the path is a regular file. *)
Lemma mkdir_parents_rev_succeeds (rp : list string) (w : World) :
  no_file_on (rev rp) w →
  ∃ w', mkdir_parents_rev rp w = (Returned (), w').
Proof.
  revert w. induction rp as [|c rp IH]; intros w Hno.
  - assert (is_file w [] = false) as Hf by (now apply Hno).
    simpl. destruct (os_mkdir_cases [] w); simpl in *; try congruence; try discriminate.
    rewrite mkdir_arm_returned by reflexivity. eauto.
  - simpl in *.
    assert (is_file w (path_parent (rev rp ++ [c])) = false) as Hpf
      by (apply Hno, path_parent_prefix).
    assert (is_file w (rev rp ++ [c]) = false) as Hf by (now apply Hno).
    destruct (os_mkdir_cases (rev rp ++ [c]) w) as [Hx | _ Hnd | _ _ Hex | ];
      [congruence | | | eauto].
    + (* the parent is missing *)
      destruct (no_parent_snoc (c :: rp) w Hnd) as (c' & rp' & [= <- <-] & Hpar).
      simpl rev in Hpar.
      destruct (IH w) as [w2 Hrec].
      { intros q Hq. apply Hno. now apply prefix_app_r. }
      unfold bind. rewrite Hrec.
      pose proof (mkdir_parents_rev_returned _ _ _ Hrec) as Hd2.
      pose proof (mkdir_parents_rev_frame rp w) as F. rewrite Hrec in F.
      destruct F as (Hfiles & _). simpl in Hfiles.
      unfold mkdir_exist_ok.
      destruct (os_mkdir_cases (rev rp ++ [c]) w2) as [Hx | _ Hnd2 | _ _ Hex | ];
        [| | | eauto].
      * rewrite (is_file_same_files w2 w) in Hx by exact Hfiles. congruence.
      * rewrite Hpar in Hnd2. congruence.
      * rewrite (is_file_same_files w2 w), Hf, orb_false_r in Hex by exact Hfiles.
        rewrite mkdir_arm_returned by exact Hex. eauto.
    + rewrite Hf, orb_false_r in Hex.
      rewrite mkdir_arm_returned by exact Hex. eauto.
Qed.

Lemma setup_succeeds (args : Namespace) (w : World) (dir : Path) :
  output_dir_of (url args) = Returned dir →
  no_file_on dir w →
  ∃ w1, setup args w = (Returned dir, w1).
Proof.
  intros Hdir Hno. unfold setup, bind, lift, ret, print, Path_mkdir. rewrite Hdir.
  destruct (mkdir_parents_rev_succeeds (rev dir) w) as [w0 Hmk].
  { now rewrite rev_involutive. }
  rewrite Hmk. eauto.
Qed.

Lemma crawl_site_returns (u : string) (d : Z) (dt : string) (l : Z) (w : World)
    (r : Response) (v : pyval) :
  remote w (request_of u d dt l) = Answered r →
  ¬ error_status (status_code r) → body r = inr v →
  ∃ w2, crawl_site u d dt l w = (Returned v, w2)
        ∧ dirs w2 = dirs w ∧ files w2 = files w ∧ remote w2 = remote w
        ∧ issued w2 = issued w ++ [request_of u d dt l]
        ∧ stdout w2 = stdout w ++ [sending_notice].
Proof.
  intros Hr Hok Hb.
  pose proof (crawl_site_world u d dt l w) as (?&?&?&?).
  pose proof (crawl_site_result u d dt l w) as Hres.
  pose proof (crawl_site_stdout u d dt l w) as Hout.
  rewrite Hr in Hres, Hout. rewrite bool_decide_eq_false_2, Hb in Hres by exact Hok.
  unfold error_status in Hok.
  assert ((400 <=? status_code r) && (status_code r <? 500) = false) as E1 by lia.
  assert ((500 <=? status_code r) && (status_code r <? 600) = false) as E2 by lia.
  rewrite E1, E2, Hb in Hout.
  destruct (crawl_site u d dt l w) as [rc w2]; simpl in *. subst rc.
  exists w2. repeat split; assumption.
Qed.


Lemma md_content_raises (data : pyval) (dt : string) (e : exn) :
  md_content data dt = Raised e → e = AttributeError ∨ e = TypeError.
Proof.
  destruct (decide (dt = "links" ∨ dt = "text" ∨ dt = "images")) as [Hk | Hu].
  - destruct (selector_section dt Hk) as (field & title & line & Hin).
    rewrite (md_content_section _ _ _ _ _ Hin).
    destruct data; simpl; try (intros [= <-]; auto).
    destruct (entries_get entries field (PList [])); simpl;
      try discriminate; intros [= <-]; auto.
  - rewrite md_content_other by (intros ->; apply Hu; auto). discriminate.
Qed.




(** X13: when the service answers with a status outside 400 to 599 and a
    body that decodes to something the renderer cannot render (it is not
    an object, or the selected field cannot be iterated), the run ends
    with exit status 1 and every file is as before: no results file is
    written. *)
Theorem X13_unrenderable_response_exits_1
    (args : Namespace) (w : World) (r : Response) (v : pyval) (e : exn) :
  remote w (crawl_request args) = Answered r →
  ¬ error_status (status_code r) →
  body r = inr v →
  md_content v (dataType args) = Raised e →
  (run args w).1 = 1 ∧ files (run args w).2 = files w.
Proof.
  intros Hr Hok Hb Hdoc. rewrite run_eq.
  destruct (setup args w) as [[dir|e0] w1] eqn:Hsetup.
  2:{ destruct (setup_raised _ _ _ _ Hsetup) as (-> & Hf & _). now split. }
  destruct (setup_returned_world _ _ _ _ Hsetup) as (_ & _ & Hf1 & _ & Hrem1 & _).
  destruct (crawl_site_returns (url args) (depth args) (dataType args)
              (requestLimit args) w1 r v) as (w2 & Hcrawl & _ & Hf2 & _);
    [now rewrite Hrem1 | exact Hok | exact Hb |].
  rewrite Hcrawl. unfold save_as_markdown, bind, lift. rewrite Hdoc. simpl.
  split; [| congruence].
  now destruct (md_content_raises _ _ _ Hdoc) as [-> | ->].
Qed.

(** X14: when the service answers with a status outside 400 to 599 and a
    body that is not JSON, the run ends with exit status 1 and every file
    is as before. *)
Theorem X14_body_not_json_exits_1
    (args : Namespace) (w : World) (r : Response) (msg : string) :
  remote w (crawl_request args) = Answered r →
  ¬ error_status (status_code r) →
  body r = inl msg →
  (run args w).1 = 1 ∧ files (run args w).2 = files w.
Proof.
  intros Hr Hok Hb. rewrite run_eq.
  destruct (setup args w) as [[dir|e0] w1] eqn:Hsetup.
  2:{ destruct (setup_raised _ _ _ _ Hsetup) as (-> & Hf & _). now split. }
  destruct (setup_returned_world _ _ _ _ Hsetup) as (_ & _ & Hf1 & _ & Hrem1 & _).
  pose proof (crawl_site_world (url args) (depth args) (dataType args)
                (requestLimit args) w1) as (_ & Hf2 & _ & _).
  pose proof (crawl_site_result (url args) (depth args) (dataType args)
                (requestLimit args) w1) as Hres.
  rewrite Hrem1 in Hres. change (request_of _ _ _ _) with (crawl_request args) in Hres.
  rewrite Hr, bool_decide_eq_false_2, Hb in Hres by exact Hok.
  destruct (crawl_site _ _ _ _ w1) as [rc w2]; simpl in *. subst rc. simpl.
  split; [reflexivity | congruence].
Qed.

(** ** The directories and files of a run *)






(** X16: the output directory is made before the request is sent: when it
    is made of ordinary names and no prefix of it is a regular file, it
    exists after the run, whatever the service does, also after a run
    that ends with exit status 1. *)
Theorem X16_output_directory_made_first
    (args : Namespace) (w : World) (dir : Path) :
  output_dir_of (url args) = Returned dir →
  ordinary_path dir = true →
  no_file_on dir w →
  is_dir (run args w).2 dir = true
  ∧ (request_fails args w →
     (run args w).1 = 1 ∧ is_dir (run args w).2 dir = true
     ∧ files (run args w).2 = files w).
Proof.
  intros Hdir _ Hno.
  assert (is_dir (run args w).2 dir = true) as Hmade.
  { rewrite run_eq.
    destruct (setup_succeeds args w dir Hdir Hno) as [w1 Hsetup]. rewrite Hsetup.
    destruct (setup_returned_world _ _ _ _ Hsetup) as (_ & Hd1 & _).
    pose proof (crawl_site_world (url args) (depth args) (dataType args)
                  (requestLimit args) w1) as (Hd2 & _ & _ & _).
    destruct (crawl_site _ _ _ _ w1) as [[v|e] w2]; simpl in Hd2.
    - pose proof (save_as_markdown_files v dir (dataType args) w2) as (Hd3 & _).
      cbn [fst snd]. simpl in Hd3.
      rewrite (is_dir_same_dirs _ w1) by congruence. exact Hd1.
    - simpl. rewrite (is_dir_same_dirs _ w1) by congruence. exact Hd1. }
  split; [exact Hmade |]. intros Hfail. rewrite run_eq in *.
  destruct (setup_succeeds args w dir Hdir Hno) as [w1 Hsetup]. rewrite Hsetup in *.
  destruct (setup_returned_world _ _ _ _ Hsetup) as (_ & _ & Hf1 & _ & Hrem1 & _).
  pose proof (crawl_site_world (url args) (depth args) (dataType args)
                (requestLimit args) w1) as (_ & Hf2 & _ & _).
  pose proof (crawl_site_result (url args) (depth args) (dataType args)
                (requestLimit args) w1) as Hres.
  rewrite Hrem1 in Hres. change (request_of _ _ _ _) with (crawl_request args) in Hres.
  unfold request_fails in Hfail.
  destruct (crawl_site _ _ _ _ w1) as [rc w2]; simpl in Hf2, Hres.
  destruct (remote w (crawl_request args)) as [cls msg | r].
  - subst rc. simpl in *. repeat split; [exact Hmade | congruence].
  - rewrite bool_decide_eq_true_2 in Hres by exact Hfail.
    subst rc. simpl in *. repeat split; [exact Hmade | congruence].
Qed.

Lemma mkdir_parents_rev_blocked (rp : list string) (w : World) :
  is_dir w (rev rp) = false →
  blocked_by_file (rev rp) w →
  ∃ c, mkdir_parents_rev rp w = (Raised (OSError c), w).
Proof.
  intros Hnd Hb. destruct rp as [|x rp]; [discriminate |]. simpl in *.
  destruct (os_mkdir_cases (rev rp ++ [x]) w) as [Hx | Hx Hy | Hx Hy Hz | Hx Hy Hz Hu].
  - rewrite mkdir_arm_raised by exact Hnd. eauto.
  - destruct Hb as [Hb | (_ & _ & Hb)]; congruence.
  - rewrite mkdir_arm_raised by exact Hnd. eauto.
  - destruct Hb as [Hb | (Hb & _)]; congruence.
Qed.

(** X17: when a regular file stands where the output directory or its
    parent should be, the run ends at once with exit status 1: nothing is
    printed, no request is sent and the world is as before. *)
Theorem X17_output_directory_blocked
    (args : Namespace) (w : World) (dir : Path) :
  output_dir_of (url args) = Returned dir →
  is_dir w dir = false →
  blocked_by_file dir w →
  run args w = (1, w).
Proof.
  intros Hdir Hnd Hb. rewrite run_eq.
  unfold setup, bind, lift, Path_mkdir. rewrite Hdir.
  destruct (mkdir_parents_rev_blocked (rev dir) w) as [c Hmk];
    [now rewrite rev_involutive | now rewrite rev_involutive |].
  now rewrite Hmk.
Qed.

(** ** A URL without a scheme *)

Lemma string_forallb_app (f : ascii → bool) (a b : string) :
  string_forallb f (a +:+ b) = string_forallb f a && string_forallb f b.
Proof.
  induction a as [|x a IH]; [reflexivity |].
  rewrite append_cons. simpl. now rewrite IH, andb_assoc.
Qed.

Lemma split_at_colon_after (a b p q : string) :
  string_forallb (λ c, negb (Ascii.eqb c ":")) a = true →
  split_at_colon (a +:+ b) = Some (p, q) →
  ∃ p', p = a +:+ p' ∧ split_at_colon b = Some (p', q).
Proof.
  revert p. induction a as [|x a IH]; intros p Ha; [eauto |].
  rewrite append_cons. simpl in *. apply andb_true_iff in Ha as [Hx Ha].
  apply negb_true_iff in Hx. rewrite Hx.
  destruct (split_at_colon (a +:+ b)) as [[p0 q0]|] eqn:E; [| discriminate].
  intros [= <- <-]. destruct (IH p0 Ha eq_refl) as (p' & -> & Hb).
  exists p'. split; [reflexivity | exact Hb].
Qed.

Lemma delimiter_not_scheme_char (c : ascii) :
  netloc_delimiter c = true → scheme_char c = false ∧ Ascii.eqb c ":" = false.
Proof.
  destruct c as [[] [] [] [] [] [] [] []]; vm_compute; intros H; try discriminate H;
    split; reflexivity.
Qed.

(** Without a colon in front of the first of [/?#], no scheme is found. *)
Lemma after_scheme_bare (host rest : string) :
  string_forallb (λ c, negb (Ascii.eqb c ":")) host = true →
  is_rest rest = true →
  after_scheme (host +:+ rest) = host +:+ rest.
Proof.
  intros Hh Hr. unfold after_scheme.
  destruct (split_at_colon (host +:+ rest)) as [[p q]|] eqn:E; [| reflexivity].
  destruct (split_at_colon_after _ _ _ _ Hh E) as (p' & -> & Hb).
  destruct rest as [|d rest]; [discriminate |]. simpl in Hr, Hb.
  destruct (delimiter_not_scheme_char d Hr) as [Hd Hc]. rewrite Hc in Hb.
  destruct (split_at_colon rest) as [[p0 q0]|]; [| discriminate].
  injection Hb as <- <-.
  destruct (host +:+ String d p0) as [|c0 pre] eqn:Ep; [reflexivity |].
  rewrite <- Ep, string_forallb_app. simpl. rewrite Hd.
  now rewrite andb_false_r, andb_false_r.
Qed.

(** X18: a URL given without a scheme ([example.com/page]) has an empty
    netloc: the output directory is [Output] itself and the results file
    is [Output/crawling_results.md], the same for every such URL. *)
Theorem X18_url_without_scheme (host rest : string) :
  is_bare_host host = true →
  is_rest rest = true →
  urlparse_netloc (host +:+ rest) = Returned EmptyString
  ∧ output_dir_of (host +:+ rest) = Returned ["Output"]
  ∧ results_file ["Output"] = ["Output"; "crawling_results.md"].
Proof.
  intros Hh Hr.
  assert (urlparse_netloc (host +:+ rest) = Returned EmptyString) as Hn.
  { destruct host as [|c host]; [discriminate |].
    apply andb_true_iff in Hh as [Hc Hh]. apply negb_true_iff in Hc.
    assert (string_forallb (λ c, negb (unsafe_url_byte c)) (String c host) = true) as Hsafe.
    { eapply string_forallb_impl; [| exact Hh].
      intros x [[_ ?]%andb_true_iff _]%andb_true_iff. assumption. }
    assert (string_forallb (λ c, negb (Ascii.eqb c ":")) (String c host) = true) as Hcolon.
    { eapply string_forallb_impl; [| exact Hh].
      intros x [_ ?]%andb_true_iff. assumption. }
    assert (netloc_delimiter c = false) as Hdelim.
    { simpl in Hh. apply andb_true_iff in Hh as [Hx _].
      apply andb_true_iff in Hx as [Hx _]. apply andb_true_iff in Hx as [Hx _].
      now apply negb_true_iff in Hx. }
    unfold urlparse_netloc.
    rewrite append_cons. simpl string_drop_while. rewrite Hc. rewrite <- append_cons.
    rewrite string_filter_app, (string_filter_all _ _ Hsafe).
    rewrite after_scheme_bare; [| exact Hcolon |].
    - rewrite append_cons. unfold starts_with.
      change (String.prefix "//" (String c ?x))
        with (if ascii_dec "/" c then String.prefix "/" x else false).
      destruct (ascii_dec "/" c) as [<- | _]; [discriminate | reflexivity].
    - pose proof (is_rest_filtered rest Hr) as Hf.
      destruct (string_filter _ rest) as [|d r]; [reflexivity |].
      simpl. now rewrite negb_involutive in Hf. }
  split; [exact Hn |]. unfold output_dir_of. rewrite Hn. split; reflexivity.
Qed.


(** * Statuses that are no errors *)

Lemma same_local_agree (p : Path) (w1 w2 : World) :
  same_local w1 w2 → agree p w1 w2.
Proof.
  intros (Hd & Hf & _). split; [exact Hd |]. intros q _.
  now apply is_file_same_files.
Qed.

(** The set-up does not look at the service. *)
Lemma setup_same_local (args : Namespace) (w w' : World) :
  same_local w w' →
  (setup args w).1 = (setup args w').1
  ∧ same_local (setup args w).2 (setup args w').2.
Proof.
  intros Hs. pose proof Hs as (Hd & Hf & Ho & Hi).
  unfold setup, bind, lift, ret, print.
  destruct (output_dir_of (url args)) as [dir|e]; simpl; [| now split].
  destruct (mkdir_parents_rev_agree (rev dir) w w') as [Hr Hd'];
    [now apply same_local_agree |].
  pose proof (Path_mkdir_frame dir w) as (F1 & F2 & F3 & _).
  pose proof (Path_mkdir_frame dir w') as (G1 & G2 & G3 & _).
  unfold Path_mkdir in *.
  destruct (mkdir_parents_rev (rev dir) w) as [r1 v1],
           (mkdir_parents_rev (rev dir) w') as [r2 v2]; simpl in *.
  subst r2. destruct r1 as [[]|e]; simpl; (split; [reflexivity |]);
    unfold same_local; simpl; repeat split; congruence.
Qed.

(** The dispatcher looks at the status of an answer only to tell the
    error statuses from the others. *)
Lemma crawl_site_same_local (u : string) (d : Z) (dt : string) (l : Z)
    (w w' : World) (r r' : Response) :
  same_local w w' →
  remote w (request_of u d dt l) = Answered r →
  remote w' (request_of u d dt l) = Answered r' →
  ¬ error_status (status_code r) → ¬ error_status (status_code r') →
  body r = body r' →
  (crawl_site u d dt l w).1 = (crawl_site u d dt l w').1
  ∧ same_local (crawl_site u d dt l w).2 (crawl_site u d dt l w').2.
Proof.
  intros (Hd & Hf & Ho & Hi) Hr Hr' Hok Hok' Hb.
  pose proof (crawl_site_world u d dt l w) as (A1 & A2 & _ & A4).
  pose proof (crawl_site_world u d dt l w') as (B1 & B2 & _ & B4).
  split.
  - rewrite !crawl_site_result, Hr, Hr', !bool_decide_eq_false_2, Hb by assumption.
    reflexivity.
  - unfold same_local. rewrite !crawl_site_stdout, Hr, Hr'.
    unfold error_status in Hok, Hok'.
    assert ((400 <=? status_code r) && (status_code r <? 500) = false) as -> by lia.
    assert ((500 <=? status_code r) && (status_code r <? 600) = false) as -> by lia.
    assert ((400 <=? status_code r') && (status_code r' <? 500) = false) as -> by lia.
    assert ((500 <=? status_code r') && (status_code r' <? 600) = false) as -> by lia.
    simpl in *. rewrite A1, A2, A4, B1, B2, B4, Hb, Ho, Hi. repeat split; assumption.
Qed.

(** Neither does the renderer look at the service. *)
Lemma save_as_markdown_same_local (data : pyval) (dir : Path) (dt : string)
    (w w' : World) :
  same_local w w' →
  (save_as_markdown data dir dt w).1 = (save_as_markdown data dir dt w').1
  ∧ same_local (save_as_markdown data dir dt w).2 (save_as_markdown data dir dt w').2.
Proof.
  intros (Hd & Hf & Ho & Hi).
  unfold save_as_markdown, bind, lift, write_text, print, resolve_parent.
  rewrite !(is_dir_same_dirs w w') by exact Hd.
  rewrite !(is_file_same_files w w') by exact Hf.
  destruct (md_content data dt) as [doc|e]; simpl; [| now repeat split].
  destruct (is_file w' _); simpl; [now repeat split |].
  destruct (negb (is_dir w' _)); simpl; [now repeat split |].
  destruct (is_dir w' _); simpl; [now repeat split |].
  unfold same_local; simpl. rewrite Hf, Ho. repeat split; assumption.
Qed.

(** C1, as amended: when the single request fails below the HTTP level (no
    connection, a timeout, ...) or is answered with an error status, 400
    to 599, the program ends with exit status 1 and the files are those
    from before the run: no results file is written.  An answer with any
    other status is processed as an answer with a success status, 200 to
    299, and the same body is: in two worlds that differ in the service
    only, the two runs end with the same exit status and leave the same
    directories, files, console output and requests. *)
Theorem C1_failed_request_exits_1 (args : Namespace) (w : World) :
  (request_fails args w →
   (run args w).1 = 1 ∧ files (run args w).2 = files w)
  ∧ (∀ (w' : World) (r r' : Response),
       remote w (crawl_request args) = Answered r →
       ¬ error_status (status_code r) →
       same_local w w' →
       remote w' (crawl_request args) = Answered r' →
       200 ≤ status_code r' < 300 →
       body r' = body r →
       (run args w).1 = (run args w').1
       ∧ same_local (run args w).2 (run args w').2).
Proof.
  split; [apply failed_request_run |].
  intros w' r r' Hr Hok Hs Hr' Hsucc Hb. rewrite !run_eq.
  destruct (setup_same_local args w w' Hs) as [Hres Hs1].
  pose proof (setup_frame args w) as (_ & _ & R1).
  pose proof (setup_frame args w') as (_ & _ & R2).
  destruct (setup args w) as [r1 w1], (setup args w') as [r2 w1']; simpl in *.
  subst r2. destruct r1 as [dir|e]; [| split; [reflexivity | exact Hs1]].
  destruct (crawl_site_same_local (url args) (depth args) (dataType args)
              (requestLimit args) w1 w1' r r' Hs1) as [Hc Hs2];
    [rewrite R1; exact Hr | rewrite R2; exact Hr' | exact Hok
     | unfold error_status; lia | now symmetry |].
  destruct (crawl_site _ _ _ _ w1) as [c1 w2], (crawl_site _ _ _ _ w1') as [c2 w2'];
    simpl in *.
  subst c2. destruct c1 as [v|e]; [| split; [reflexivity | exact Hs2]].
  cbn [fst snd].
  destruct (save_as_markdown_same_local v dir (dataType args) w2 w2' Hs2) as [-> Hs3].
  split; [reflexivity | exact Hs3].
Qed.

End Properties.

(** * Examples *)

#[local] Existing Instance sample_library.

(** The first example of the specification: two links. *)
Lemma C3_witness :
  (entries_lookup [("links", PList [PStr "https://a.com"; PStr "https://b.com"])] "links"
   = Some (PList (PStr <$> ["https://a.com"; "https://b.com"]))
   ∧ can_write (ready_world None) sample_dir)
  ∧ ∃ w' doc,
      save_as_markdown
        (PDict [("links", PList [PStr "https://a.com"; PStr "https://b.com"])])
        sample_dir "links" (ready_world None) = (Returned tt, w')
      ∧ files w' !! results_file sample_dir = Some doc
      ∧ lines doc
        = ["# Resultado do Crawling"; ""; "## Tipo de dados: links"; "";
           "### Links encontrados:"; "";
           "- [https://a.com](https://a.com)";
           "- [https://b.com](https://b.com)"; ""].
Proof.
  assert (can_write (ready_world None) sample_dir) as Hw by (vm_compute; auto).
  split; [split; [reflexivity | exact Hw] |].
  destruct (C3_links_one_line_per_url
              [("links", PList [PStr "https://a.com"; PStr "https://b.com"])]
              ["https://a.com"; "https://b.com"] sample_dir (ready_world None)
              eq_refl Hw) as [_ Hexample].
  exact Hexample.
Defined.

(** The second example of the specification: two texts. *)
Lemma C4_witness :
  (entries_lookup [("texts", PList [PStr "Hello"; PStr "World"])] "texts"
   = Some (PList (PStr <$> ["Hello"; "World"]))
   ∧ Forall (λ t, is_utf8 t = true) ["Hello"; "World"]
   ∧ ["Hello"; "World"] ≠ ([] : list string)
   ∧ can_write (ready_world None) sample_dir)
  ∧ ∃ w' doc,
      save_as_markdown (PDict [("texts", PList [PStr "Hello"; PStr "World"])])
        sample_dir "text" (ready_world None) = (Returned tt, w')
      ∧ files w' !! results_file sample_dir = Some doc
      ∧ lines doc
        = ["# Resultado do Crawling"; ""; "## Tipo de dados: text"; "";
           "### Textos extraídos:"; "";
           "Hello"; ""; "---"; ""; "World"; ""; "---"; ""; ""].
Proof.
  assert (can_write (ready_world None) sample_dir) as Hw by (vm_compute; auto).
  assert (Forall (λ t, is_utf8 t = true) ["Hello"; "World"]) as Hu
    by (repeat constructor).
  split; [split; [reflexivity | split; [exact Hu | split; [discriminate | exact Hw]]] |].
  destruct (C4_texts_separated_by_rules
              [("texts", PList [PStr "Hello"; PStr "World"])]
              ["Hello"; "World"] sample_dir (ready_world None)
              eq_refl Hu ltac:(discriminate) Hw) as (_ & _ & Hexample).
  exact Hexample.
Defined.

(** A service that answers 300 (Multiple Choices) with a JSON body: the
    status is outside the success range, [raise_for_status] lets it pass,
    the run ends with exit status 0 and the results file is written. *)
Lemma C1_counterexample :
  remote (fresh_world (answering 300 (PDict [("links", PList [])])))
    (crawl_request (sample_args "links"))
  = Answered {| status_code := 300; reason := "";
                resp_url := "https://api.firecrawl.com/crawl";
                body := inr (PDict [("links", PList [])]) |}
  ∧ non_success 300
  ∧ (run (sample_args "links")
       (fresh_world (answering 300 (PDict [("links", PList [])])))).1 = 0
  ∧ files (run (sample_args "links")
             (fresh_world (answering 300 (PDict [("links", PList [])])))).2
      !! ["Output"; "example.com"; "crawling_results.md"]
    = Some (title_heading +:+ sub_heading "links" +:+ "### Links encontrados:"
            +:+ LF +:+ LF).
Proof.
  split; [reflexivity |]. split; [unfold non_success; lia |].
  split; vm_compute; reflexivity.
Defined.

(** A service that cannot be reached; and a service that answers 304 (Not
    Modified) next to one that answers 200, both with the same body. *)
Lemma C1_witness :
  (request_fails (sample_args "links") (fresh_world unreachable)
   ∧ (run (sample_args "links") (fresh_world unreachable)).1 = 1
   ∧ files (run (sample_args "links") (fresh_world unreachable)).2
     = files (fresh_world unreachable))
  ∧ (¬ error_status 304
     ∧ (run (sample_args "links") (fresh_world (answering 304 (PDict [])))).1
       = (run (sample_args "links") (fresh_world (answering 200 (PDict [])))).1
     ∧ files (run (sample_args "links") (fresh_world (answering 304 (PDict [])))).2
       = files (run (sample_args "links") (fresh_world (answering 200 (PDict [])))).2).
Proof.
  assert (¬ error_status 304) as Hok by (unfold error_status; lia).
  split.
  - split; [exact I |].
    apply (proj1 (C1_failed_request_exits_1 (sample_args "links")
                    (fresh_world unreachable))).
    exact I.
  - split; [exact Hok |].
    destruct (proj2 (C1_failed_request_exits_1 (sample_args "links")
                       (fresh_world (answering 304 (PDict []))))
                (fresh_world (answering 200 (PDict [])))
                {| status_code := 304; reason := "";
                   resp_url := "https://api.firecrawl.com/crawl";
                   body := inr (PDict []) |}
                {| status_code := 200; reason := "";
                   resp_url := "https://api.firecrawl.com/crawl";
                   body := inr (PDict []) |}
                eq_refl Hok ltac:(repeat split) eq_refl ltac:(simpl; lia) eq_refl)
      as (Hstatus & _ & Hfiles & _).
    split; [exact Hstatus | exact Hfiles].
Defined.

(** Two URLs of one host, one with a path and a query, one with a query
    and a fragment. *)
Lemma C5_witness :
  (is_scheme "https" = true ∧ is_host "example.com" = true
   ∧ is_rest "/docs?page=2" = true ∧ is_rest "?q=1#top" = true)
  ∧ output_dir_of "https://example.com/docs?page=2"
    = output_dir_of "https://example.com?q=1#top"
  ∧ urlparse_netloc "https://example.com/docs?page=2" = Returned "example.com"
  ∧ output_dir_of "https://example.com/docs?page=2"
    = Returned ["Output"; "example.com"]
  ∧ path_str ["Output"; "example.com"] = "Output/example.com".
Proof.
  split; [repeat split; reflexivity |].
  destruct (C5_output_dir_from_netloc_only "https" "example.com" "/docs?page=2"
              "?q=1#top" eq_refl eq_refl eq_refl eq_refl)
    as (Hsame & Hdir & Hplain & _).
  split; [exact Hsame |].
  destruct (Hdir (Hplain eq_refl eq_refl eq_refl)) as (Hnetloc & _ & Hparts).
  split; [exact Hnetloc |].
  apply Hparts; discriminate.
Defined.

(** A response whose one text is the lone surrogate U+D800, which
    [json.loads] builds from the escape [\ud800]: the renderer opens the
    results file, which empties it, and the encoder raises.  The file
    holds no paragraph and no rule, and no longer what it held before. *)
Lemma C4_counterexample :
  [[Surrogate 55296]] ≠ ([] : list str)
  ∧ can_write (ready_world (Some "older results")) sample_dir
  ∧ files (ready_world (Some "older results")) !! results_file sample_dir
    = Some "older results"
  ∧ (save_texts_as_markdown [[Surrogate 55296]] sample_dir
       (ready_world (Some "older results"))).1
    = Raised ValueError
  ∧ files (save_texts_as_markdown [[Surrogate 55296]] sample_dir
             (ready_world (Some "older results"))).2
      !! results_file sample_dir
    = Some EmptyString
  ∧ stdout (save_texts_as_markdown [[Surrogate 55296]] sample_dir
              (ready_world (Some "older results"))).2
    = [].
Proof.
  split; [discriminate |]. split; [vm_compute; auto |].
  repeat split; vm_compute; reflexivity.
Defined.



(** A response without the field [images]. *)
Lemma C7_witness :
  (("images", "images", "### Imagens encontradas:", image_block) ∈ sections
   ∧ entries_lookup [("links", PList [PStr "https://a.com"])] "images" = None
   ∧ can_write (ready_world None) sample_dir)
  ∧ ∃ w',
      save_as_markdown (PDict [("links", PList [PStr "https://a.com"])])
        sample_dir "images" (ready_world None) = (Returned tt, w')
      ∧ files w' !! results_file sample_dir
        = Some (title_heading +:+ sub_heading "images"
                +:+ "### Imagens encontradas:" +:+ LF +:+ LF).
Proof.
  assert (("images", "images", "### Imagens encontradas:", image_block) ∈ sections)
    as Hin by (unfold sections; do 2 apply list_elem_of_further; apply list_elem_of_here).
  assert (can_write (ready_world None) sample_dir) as Hw by (vm_compute; auto).
  split; [split; [exact Hin | split; [reflexivity | exact Hw]] |].
  exact (C7_missing_field_empty_section _ _ _ _
           [("links", PList [PStr "https://a.com"])] sample_dir (ready_world None)
           Hin eq_refl Hw).
Defined.

(** Two runs against a service that answers; and the renderer in a
    directory that holds an older results file. *)
Lemma C8_witness :
  (run (sample_args "text")
     (run (sample_args "text")
        (fresh_world (answering 200 (PDict [("texts", PList [PStr "Hello"])])))).2).1
  = (run (sample_args "text")
       (fresh_world (answering 200 (PDict [("texts", PList [PStr "Hello"])])))).1
  ∧ files (run (sample_args "text")
             (run (sample_args "text")
                (fresh_world (answering 200 (PDict [("texts", PList [PStr "Hello"])])))).2).2
    = files (run (sample_args "text")
               (fresh_world (answering 200 (PDict [("texts", PList [PStr "Hello"])])))).2
  ∧ files (ready_world (Some "older results")) !! results_file sample_dir
    = Some "older results"
  ∧ files (save_as_markdown (PDict [("texts", PList [PStr "Hello"])]) sample_dir
             (dataType (sample_args "text")) (ready_world (Some "older results"))).2
      !! results_file sample_dir
    = Some (title_heading +:+ sub_heading "text" +:+ "### Textos extraídos:"
            +:+ LF +:+ LF +:+ "Hello" +:+ rule_block).
Proof.
  destruct (C8_second_run_overwrites (sample_args "text")
              (fresh_world (answering 200 (PDict [("texts", PList [PStr "Hello"])]))))
    as (Hwrite & Hstatus & _ & Hfiles).
  split; [exact Hstatus |]. split; [exact Hfiles |].
  split; [vm_compute; reflexivity |].
  rewrite (Hwrite (PDict [("texts", PList [PStr "Hello"])]) sample_dir
             (title_heading +:+ sub_heading "text" +:+ "### Textos extraídos:"
              +:+ LF +:+ LF +:+ "Hello" +:+ rule_block)
             (ready_world (Some "older results"))).
  - apply lookup_insert_eq.
  - vm_compute. reflexivity.
  - vm_compute. auto.
Defined.

(** An empty list of texts, and no texts at all. *)
Lemma C9_witness :
  (("text", "texts", "### Textos extraídos:", text_block) ∈ sections
   ∧ entries_lookup [("texts", PList [])] "texts" = Some (PList [])
   ∧ entries_lookup [] "texts" = None)
  ∧ md_content (PDict [("texts", PList [])]) "text" = md_content (PDict []) "text"
  ∧ save_as_markdown (PDict [("texts", PList [])]) sample_dir "text" (ready_world None)
    = save_as_markdown (PDict []) sample_dir "text" (ready_world None).
Proof.
  assert (("text", "texts", "### Textos extraídos:", text_block) ∈ sections)
    as Hin by (unfold sections; apply list_elem_of_further, list_elem_of_here).
  split; [split; [exact Hin | split; reflexivity] |].
  exact (C9_empty_list_as_absent _ _ _ _ [("texts", PList [])] [] sample_dir
           (ready_world None) Hin eq_refl eq_refl).
Defined.

(** Two responses with the same links and different other fields. *)
Lemma C10_witness :
  (("links", "links", "### Links encontrados:", link_line) ∈ sections
   ∧ entries_lookup [("links", PList [PStr "https://a.com"]); ("texts", PList [PStr "x"])]
       "links"
     = entries_lookup [("images", PInt 7); ("links", PList [PStr "https://a.com"])]
         "links")
  ∧ md_content
      (PDict [("links", PList [PStr "https://a.com"]); ("texts", PList [PStr "x"])])
      "links"
    = md_content
        (PDict [("images", PInt 7); ("links", PList [PStr "https://a.com"])]) "links"
  ∧ save_as_markdown
      (PDict [("links", PList [PStr "https://a.com"]); ("texts", PList [PStr "x"])])
      sample_dir "links" (ready_world None)
    = save_as_markdown
        (PDict [("images", PInt 7); ("links", PList [PStr "https://a.com"])])
        sample_dir "links" (ready_world None).
Proof.
  assert (("links", "links", "### Links encontrados:", link_line) ∈ sections)
    as Hin by (unfold sections; apply list_elem_of_here).
  split; [split; [exact Hin | reflexivity] |].
  exact (C10_only_selected_field_matters _ _ _ _
           [("links", PList [PStr "https://a.com"]); ("texts", PList [PStr "x"])]
           [("images", PInt 7); ("links", PList [PStr "https://a.com"])]
           sample_dir (ready_world None) Hin eq_refl).
Defined.

(** * Examples of the further properties *)

Lemma fresh_world_no_file (p : Path) (service : Request → Exchange) :
  no_file_on p (fresh_world service).
Proof. intros q _. reflexivity. Qed.

Lemma sections_links : ("links", "links", "### Links encontrados:", link_line) ∈ sections.
Proof. unfold sections. apply list_elem_of_here. Qed.

(** The third example of the specification: one image. *)
Lemma X1_witness :
  (entries_lookup [("images", PList [PStr "https://x.com/i.png"])] "images"
   = Some (PList (PStr <$> ["https://x.com/i.png"]))
   ∧ can_write (ready_world None) sample_dir)
  ∧ ∃ w' doc,
      save_as_markdown (PDict [("images", PList [PStr "https://x.com/i.png"])])
        sample_dir "images" (ready_world None) = (Returned tt, w')
      ∧ files w' !! results_file sample_dir = Some doc
      ∧ lines doc
        = ["# Resultado do Crawling"; ""; "## Tipo de dados: images"; "";
           "### Imagens encontradas:"; "";
           "![https://x.com/i.png](https://x.com/i.png)"; ""; ""].
Proof.
  assert (can_write (ready_world None) sample_dir) as Hw by (vm_compute; auto).
  split; [split; [reflexivity | exact Hw] |].
  destruct (X1_images_one_embed_per_url
              [("images", PList [PStr "https://x.com/i.png"])]
              ["https://x.com/i.png"] sample_dir (ready_world None) eq_refl Hw)
    as (w' & doc & Hsave & Hfile & _ & Hlines).
  exists w', doc. split; [exact Hsave |]. split; [exact Hfile |].
  apply Hlines. repeat constructor.
Defined.

Lemma X2_witness :
  md_content (PDict []) "video"
  = Returned ("# Resultado do Crawling" +:+ LF +:+ LF
              +:+ "## Tipo de dados: video" +:+ LF +:+ LF)
  ∧ ∃ rest, "# Resultado do Crawling" +:+ LF +:+ LF
            +:+ "## Tipo de dados: video" +:+ LF +:+ LF
            = "# Resultado do Crawling" +:+ LF +:+ LF
              +:+ "## Tipo de dados: " +:+ "video" +:+ LF +:+ LF +:+ rest.
Proof.
  split; [reflexivity |].
  exact (X2_document_starts_with_headings (PDict []) "video" _ eq_refl).
Defined.

Lemma X3_witness :
  (("links", "links", "### Links encontrados:", link_line) ∈ sections
   ∧ entries_lookup [("links", PList [PStr "https://a.com"])] "links"
     = Some (PList [PStr "https://a.com"])
   ∧ entries_lookup [("links", PList [PStr "https://a.com"; PInt 7])] "links"
     = Some (PList ([PStr "https://a.com"] ++ [PInt 7])))
  ∧ ∃ doc,
      md_content (PDict [("links", PList [PStr "https://a.com"])]) "links"
      = Returned doc
      ∧ md_content (PDict [("links", PList [PStr "https://a.com"; PInt 7])]) "links"
        = Returned (doc +:+ link_line (format (PInt 7))).
Proof.
  split; [split; [exact sections_links | split; reflexivity] |].
  exact (X3_one_more_item_appends_its_block _ _ _ _
           [("links", PList [PStr "https://a.com"])]
           [("links", PList [PStr "https://a.com"; PInt 7])]
           [PStr "https://a.com"] (PInt 7) sections_links eq_refl eq_refl).
Defined.

(** A response that is a JSON array. *)
Lemma X5_witness :
  (("links", "links", "### Links encontrados:", link_line) ∈ sections
   ∧ ¬ is_dict (PList [PStr "https://a.com"]))
  ∧ save_as_markdown (PList [PStr "https://a.com"]) sample_dir "links"
      (ready_world None)
    = (Raised AttributeError, ready_world None).
Proof.
  split; [split; [exact sections_links | exact (λ H, H)] |].
  exact (X5_response_not_a_dict _ _ _ _ (PList [PStr "https://a.com"]) sample_dir
           (ready_world None) sections_links (λ H, H)).
Defined.

(** A response whose [links] field is [null]. *)
Lemma X6_witness :
  (("links", "links", "### Links encontrados:", link_line) ∈ sections
   ∧ entries_lookup [("links", PNone)] "links" = Some PNone
   ∧ not_iterable PNone)
  ∧ save_as_markdown (PDict [("links", PNone)]) sample_dir "links" (ready_world None)
    = (Raised TypeError, ready_world None).
Proof.
  split; [split; [exact sections_links | split; [reflexivity | exact I]] |].
  exact (X6_field_not_iterable _ _ _ _ [("links", PNone)] PNone sample_dir
           (ready_world None) sections_links eq_refl I).
Defined.

(** A response whose [links] field is a string of two characters. *)
Lemma X7_witness :
  (("links", "links", "### Links encontrados:", link_line) ∈ sections
   ∧ entries_lookup [("links", PStr "ab")] "links" = Some (PStr "ab")
   ∧ isascii "ab" = true)
  ∧ md_content (PDict [("links", PStr "ab")]) "links"
    = Returned (title_heading +:+ sub_heading "links" +:+ "### Links encontrados:"
                +:+ LF +:+ LF +:+ "- [a](a)" +:+ LF +:+ "- [b](b)" +:+ LF).
Proof.
  split; [split; [exact sections_links | split; reflexivity] |].
  exact (X7_string_field_per_character _ _ _ _ [("links", PStr "ab")] "ab"
           sections_links eq_refl eq_refl).
Defined.

(** A response whose [links] field is an object with two keys. *)
Lemma X8_witness :
  (("links", "links", "### Links encontrados:", link_line) ∈ sections
   ∧ entries_lookup [("links", PDict [("first", PInt 1); ("second", PInt 2)])] "links"
     = Some (PDict [("first", PInt 1); ("second", PInt 2)]))
  ∧ md_content (PDict [("links", PDict [("first", PInt 1); ("second", PInt 2)])])
      "links"
    = Returned (title_heading +:+ sub_heading "links" +:+ "### Links encontrados:"
                +:+ LF +:+ LF
                +:+ "- [first](first)" +:+ LF +:+ "- [second](second)" +:+ LF).
Proof.
  split; [split; [exact sections_links | reflexivity] |].
  exact (X8_dict_field_per_key _ _ _ _
           [("links", PDict [("first", PInt 1); ("second", PInt 2)])]
           [("first", PInt 1); ("second", PInt 2)] sections_links eq_refl).
Defined.


(** A service that answers with a JSON array. *)
Lemma X13_witness :
  (¬ error_status 200
   ∧ md_content (PList []) (dataType (sample_args "links")) = Raised AttributeError)
  ∧ (run (sample_args "links") (fresh_world (answering 200 (PList [])))).1 = 1
  ∧ files (run (sample_args "links") (fresh_world (answering 200 (PList [])))).2
    = files (fresh_world (answering 200 (PList []))).
Proof.
  assert (¬ error_status 200) as Hok by (unfold error_status; lia).
  split; [split; [exact Hok | reflexivity] |].
  exact (X13_unrenderable_response_exits_1 (sample_args "links")
           (fresh_world (answering 200 (PList []))) _ _ _ eq_refl Hok eq_refl eq_refl).
Defined.

Lemma X14_witness :
  ¬ error_status 200
  ∧ (run (sample_args "links") (fresh_world answering_text)).1 = 1
  ∧ files (run (sample_args "links") (fresh_world answering_text)).2
    = files (fresh_world answering_text).
Proof.
  assert (¬ error_status 200) as Hok by (unfold error_status; lia).
  split; [exact Hok |].
  exact (X14_body_not_json_exits_1 (sample_args "links") (fresh_world answering_text)
           _ _ eq_refl Hok eq_refl).
Defined.

(** A service that cannot be reached: the directory is there all the same. *)
Lemma X16_witness :
  (output_dir_of (url (sample_args "links")) = Returned sample_dir
   ∧ ordinary_path sample_dir = true
   ∧ no_file_on sample_dir (fresh_world unreachable)
   ∧ request_fails (sample_args "links") (fresh_world unreachable))
  ∧ is_dir (fresh_world unreachable) sample_dir = false
  ∧ (run (sample_args "links") (fresh_world unreachable)).1 = 1
  ∧ is_dir (run (sample_args "links") (fresh_world unreachable)).2 sample_dir = true.
Proof.
  split.
  { split; [reflexivity |]. split; [reflexivity |].
    split; [apply fresh_world_no_file | exact I]. }
  split; [reflexivity |].
  destruct (X16_output_directory_made_first (sample_args "links")
              (fresh_world unreachable) sample_dir eq_refl eq_refl
              (fresh_world_no_file _ _))
    as [_ Hfail].
  destruct (Hfail I) as (Hstatus & Hdir & _). split; [exact Hstatus | exact Hdir].
Defined.

(** [Output] is a regular file. *)
Lemma X17_witness :
  (output_dir_of (url (sample_args "links")) = Returned sample_dir
   ∧ is_dir blocked_world sample_dir = false
   ∧ blocked_by_file sample_dir blocked_world)
  ∧ run (sample_args "links") blocked_world = (1, blocked_world).
Proof.
  assert (blocked_by_file sample_dir blocked_world) as Hb by (left; vm_compute; reflexivity).
  split; [split; [reflexivity | split; [reflexivity | exact Hb]] |].
  exact (X17_output_directory_blocked (sample_args "links") blocked_world sample_dir
           eq_refl eq_refl Hb).
Defined.

Lemma X18_witness :
  (is_bare_host "example.com" = true ∧ is_rest "/page?x=1" = true)
  ∧ urlparse_netloc "example.com/page?x=1" = Returned EmptyString
  ∧ output_dir_of "example.com/page?x=1" = Returned ["Output"]
  ∧ results_file ["Output"] = ["Output"; "crawling_results.md"].
Proof.
  split; [split; reflexivity |].
  exact (X18_url_without_scheme "example.com" "/page?x=1" eq_refl eq_refl).
Defined.



